(** * loadtimes: the [/endpoint] ingestion handler of [main.go]

    A shallow embedding of [Endpoint] (main.go, lines 282-319) together with
    the Go values it computes on: [int64] arithmetic with wrap-around,
    [float64] values and their conversion to [int64], [time.Time] instants,
    the [ServerEvent] record and the span identifiers of appdash. *)

From Stdlib Require Import ZArith QArith Qround Lia List Ascii String.
From Stdlib Require Import Floats.SpecFloat.
From stdpp Require Import gmap strings list fin_maps.

Set Warnings "-register-all".

Local Open Scope Z_scope.
Local Open Scope string_scope.

(** ** Go's [int64] *)

Module Int64.

Definition min_int : Z := - 2 ^ 63.
Definition max_int : Z := 2 ^ 63 - 1.

Definition in_range (z : Z) : Prop := min_int <= z <= max_int.

(** Two's complement reduction: what an overflowing signed operation
    leaves in the register. *)
Definition wrap (z : Z) : Z := (z + 2 ^ 63) mod 2 ^ 64 - 2 ^ 63.

Definition add (a b : Z) : Z := wrap (a + b).
Definition mul (a b : Z) : Z := wrap (a * b).
(** Go's [/] on integers truncates toward zero. *)
Definition div (a b : Z) : Z := wrap (a ÷ b).

End Int64.

(** ** Go's [float64]

    IEEE 754 binary64 values, in the specification format of the standard
    library: a sign, a mantissa and a binary exponent. *)

Definition float64 : Type := spec_float.

Definition float64_valid (f : float64) : bool := valid_binary 53 1024 f.

(** The float nearest to [m * 2^e]. *)
Definition float64_of_dyadic (m e : Z) : float64 := binary_normalize 53 1024 m e false.
Definition float64_of_Z (z : Z) : float64 := float64_of_dyadic z 0.

(** The exact rational value of a finite float. *)
Definition float64_value (f : float64) : option Q :=
  match f with
  | S754_zero _ => Some 0%Q
  | S754_finite s m e =>
      Some (if (0 <=? e)%Z
            then inject_Z (cond_Zopp s (Zpos m * 2 ^ e))
            else Qmake (cond_Zopp s (Zpos m)) (Z.to_pos (2 ^ (- e))))
  | S754_infinity _ | S754_nan => None
  end.

(** The integer part of a finite float (its value with the fraction
    discarded). [Z.shiftl] by a negative amount shifts right. *)
Definition float64_trunc (f : float64) : option Z :=
  match f with
  | S754_zero _ => Some 0
  | S754_finite s m e => Some (cond_Zopp s (Z.shiftl (Zpos m) e))
  | S754_infinity _ | S754_nan => None
  end.

(** The Go specification leaves [int64(f)] implementation-dependent when
    the integer part of [f] is not an [int64] (too large, infinite, NaN).
    The platform supplies that value. *)
Class Platform : Type := {
  float_to_int64_unrepresentable : float64 -> Z
}.

(** amd64: CVTTSD2SQ yields the "integer indefinite" value. *)
Definition amd64 : Platform :=
  {| float_to_int64_unrepresentable := fun _ => Int64.min_int |}.

(** The conversion [int64(f)]. *)
Definition int64_of_float64 {P : Platform} (f : float64) : Z :=
  match float64_trunc f with
  | Some z =>
      if decide (Int64.in_range z) then z
      else Int64.wrap (float_to_int64_unrepresentable f)
  | None => Int64.wrap (float_to_int64_unrepresentable f)
  end.

(** ** Package [time] *)

Module time.

(** An instant, as nanoseconds since the Unix epoch. *)
Record Time : Type := { ns : Z }.

(** The zero [Time]: January 1, year 1, 00:00:00 UTC. *)
Definition zero : Time := {| ns := - 62135596800 * 1000000000 |}.

(** [t.UnixNano()]: an [int64]. *)
Definition UnixNano (t : Time) : Z := Int64.wrap (ns t).

(** [time.Unix(sec, nsec)]. *)
Definition Unix (sec nsec : Z) : Time := {| ns := sec * 1000000000 + nsec |}.

(** [t.Before(u)]. *)
Definition Before (t u : Time) : Prop := ns t < ns u.

End time.

(** ** The structs of main.go *)

(** [ClientCallInfo] (main.go, line 29): one resource-timing entry as the
    page posts it. [EndTime] carries the entry's duration in milliseconds
    (loadPerformanceData.js: [endTime = val.duration]). *)
Record ClientCallInfo : Type := {
  Name : string;
  EntryType : string;
  StartTime : float64;
  EndTime : float64;
  InitiatorType : string
}.

(** The zero value of the struct. *)
Definition ClientCallInfo_zero : ClientCallInfo :=
  {| Name := EmptyString; EntryType := EmptyString; StartTime := S754_zero false;
     EndTime := S754_zero false; InitiatorType := EmptyString |}.

(** [RequestInfo] (line 48). A Go [map[string]string] is a finite map. *)
Record RequestInfo : Type := {
  Method : string;
  URI : string;
  Proto : string;
  Headers : gmap string string;
  Host : string;
  RemoteAddr : string;
  ContentLength : Z
}.

(** [ResponseInfo] (line 59). Its [Headers] and [ContentLength] fields are
    prefixed here, since the names are taken by [RequestInfo]. *)
Record ResponseInfo : Type := {
  Response_Headers : gmap string string;
  Response_ContentLength : Z;
  StatusCode : Z
}.

(** [ServerEvent] (line 71). *)
Record ServerEvent : Type := {
  Request : RequestInfo;
  Response : ResponseInfo;
  Route : string;
  User : string;
  ServerRecv : time.Time;
  ServerSend : time.Time
}.

(** [NewServerEvent] (line 66): a pointer to the zero [ServerEvent]. *)
Definition NewServerEvent : ServerEvent :=
  {| Request := {| Method := EmptyString; URI := EmptyString; Proto := EmptyString; Headers := ∅;
                   Host := EmptyString; RemoteAddr := EmptyString; ContentLength := 0 |};
     Response := {| Response_Headers := ∅; Response_ContentLength := 0;
                    StatusCode := 0 |};
     Route := EmptyString; User := EmptyString;
     ServerRecv := time.zero; ServerSend := time.zero |}.

(** Field assignments [e.F = v]. *)
Definition set_Request (v : RequestInfo) (e : ServerEvent) : ServerEvent :=
  {| Request := v; Response := Response e; Route := Route e; User := User e;
     ServerRecv := ServerRecv e; ServerSend := ServerSend e |}.
Definition set_Response (v : ResponseInfo) (e : ServerEvent) : ServerEvent :=
  {| Request := Request e; Response := v; Route := Route e; User := User e;
     ServerRecv := ServerRecv e; ServerSend := ServerSend e |}.
Definition set_Route (v : string) (e : ServerEvent) : ServerEvent :=
  {| Request := Request e; Response := Response e; Route := v; User := User e;
     ServerRecv := ServerRecv e; ServerSend := ServerSend e |}.
Definition set_User (v : string) (e : ServerEvent) : ServerEvent :=
  {| Request := Request e; Response := Response e; Route := Route e; User := v;
     ServerRecv := ServerRecv e; ServerSend := ServerSend e |}.
Definition set_ServerRecv (v : time.Time) (e : ServerEvent) : ServerEvent :=
  {| Request := Request e; Response := Response e; Route := Route e;
     User := User e; ServerRecv := v; ServerSend := ServerSend e |}.
Definition set_ServerSend (v : time.Time) (e : ServerEvent) : ServerEvent :=
  {| Request := Request e; Response := Response e; Route := Route e;
     User := User e; ServerRecv := ServerRecv e; ServerSend := v |}.

(** [Start] and [End] (lines 89, 92): the span's time span. *)
Definition Start (e : ServerEvent) : time.Time := ServerRecv e.
Definition End (e : ServerEvent) : time.Time := ServerSend e.

(** ** Package [encoding/json]

    [Endpoint] decodes the request body with [json.NewDecoder(r.Body)] and
    [Decode(&t)], [t] a nil [[]ClientCallInfo]. The package is imported, not
    part of the repository; this is its documented behaviour for that target
    type, on a body already split into JSON values. *)

Module json.

(** A JSON value. A number in the range of [float64] carries the value
    [strconv.ParseFloat] rounds its literal to; a number out of that range
    carries its literal. *)
Inductive Value : Type :=
| JNull
| JBool (b : bool)
| JNumber (f : float64)
| JNumberOutOfRange (literal : string)
| JString (s : string)
| JArray (vs : list Value)
| JObject (members : list (string * Value)).

(** A request body: bytes that do not start with a JSON value (including
    an empty body), or the first JSON value of the stream. *)
Inductive Body : Type :=
| Invalid
| Valid (v : Value).

(** The errors [Decode] returns: a syntax error (or [io.EOF]), found before
    anything is stored, or the first value that does not fit its target. *)
Inductive error : Type :=
| SyntaxError
| UnmarshalTypeError (value : string).

(** [saveError]: the earliest error is the one reported. *)
Definition saveError (saved new : option error) : option error :=
  match saved with
  | Some _ => saved
  | None => new
  end.

(** Object keys match struct fields case-insensitively, as by
    [bytes.EqualFold]: ASCII letters fold to upper case, and so do the two
    other runes that fold to an ASCII letter, U+017F (long s, bytes C5 BF)
    and U+212A (Kelvin sign, bytes E2 84 AA). *)
Fixpoint foldName (s : string) : string :=
  match s with
  | EmptyString => EmptyString
  | String c s' =>
      let n := nat_of_ascii c in
      if ((97 <=? n)%nat && (n <=? 122)%nat)%bool
      then String (ascii_of_nat (n - 32)) (foldName s')
      else
        match n, s' with
        | 197%nat, String c1 s1 =>
            if (nat_of_ascii c1 =? 191)%nat
            then String "S" (foldName s1)
            else String c (foldName s')
        | 226%nat, String c1 (String c2 s2) =>
            if ((nat_of_ascii c1 =? 132)%nat && (nat_of_ascii c2 =? 170)%nat)%bool
            then String "K" (foldName s2)
            else String c (foldName s')
        | _, _ => String c (foldName s')
        end
  end.

Inductive Field : Type :=
| FName | FEntryType | FStartTime | FEndTime | FInitiatorType.

Definition fields : list (string * Field) :=
  [("Name", FName); ("EntryType", FEntryType); ("StartTime", FStartTime);
   ("EndTime", FEndTime); ("InitiatorType", FInitiatorType)].

(** The field an object key names, if any. An exact match is also a folded
    match, and no two field names fold to the same string. *)
Definition findField (key : string) : option Field :=
  snd <$> List.find (fun nf => String.eqb (foldName (fst nf)) (foldName key)) fields.

(** Storing a JSON value into a [string] field: a string is stored, [null]
    is ignored, any other value is an [UnmarshalTypeError] and the field is
    left as it was. *)
Definition storeString (v : Value) (old : string) : string * option error :=
  match v with
  | JString s => (s, None)
  | JNull => (old, None)
  | JBool _ => (old, Some (UnmarshalTypeError "bool"))
  | JNumber _ | JNumberOutOfRange _ => (old, Some (UnmarshalTypeError "number"))
  | JArray _ => (old, Some (UnmarshalTypeError "array"))
  | JObject _ => (old, Some (UnmarshalTypeError "object"))
  end.

(** Storing a JSON value into a [float64] field. A literal out of range
    is reported with its text, and the field is left as it was. *)
Definition storeFloat (v : Value) (old : float64) : float64 * option error :=
  match v with
  | JNumber f => (f, None)
  | JNumberOutOfRange literal =>
      (old, Some (UnmarshalTypeError ("number " ++ literal)))
  | JNull => (old, None)
  | JBool _ => (old, Some (UnmarshalTypeError "bool"))
  | JString _ => (old, Some (UnmarshalTypeError "string"))
  | JArray _ => (old, Some (UnmarshalTypeError "array"))
  | JObject _ => (old, Some (UnmarshalTypeError "object"))
  end.

(** One member [key: v] of an object decoded into a [ClientCallInfo]; a key
    that names no field is skipped. *)
Definition storeMember (key : string) (v : Value) (c : ClientCallInfo)
  : ClientCallInfo * option error :=
  match findField key with
  | None => (c, None)
  | Some FName =>
      let '(s, err) := storeString v (Name c) in
      ({| Name := s; EntryType := EntryType c; StartTime := StartTime c;
          EndTime := EndTime c; InitiatorType := InitiatorType c |}, err)
  | Some FEntryType =>
      let '(s, err) := storeString v (EntryType c) in
      ({| Name := Name c; EntryType := s; StartTime := StartTime c;
          EndTime := EndTime c; InitiatorType := InitiatorType c |}, err)
  | Some FStartTime =>
      let '(f, err) := storeFloat v (StartTime c) in
      ({| Name := Name c; EntryType := EntryType c; StartTime := f;
          EndTime := EndTime c; InitiatorType := InitiatorType c |}, err)
  | Some FEndTime =>
      let '(f, err) := storeFloat v (EndTime c) in
      ({| Name := Name c; EntryType := EntryType c; StartTime := StartTime c;
          EndTime := f; InitiatorType := InitiatorType c |}, err)
  | Some FInitiatorType =>
      let '(s, err) := storeString v (InitiatorType c) in
      ({| Name := Name c; EntryType := EntryType c; StartTime := StartTime c;
          EndTime := EndTime c; InitiatorType := s |}, err)
  end.

(** The members of an object, in order: a later duplicate key overrides. *)
Fixpoint storeMembers (members : list (string * Value)) (c : ClientCallInfo)
  (saved : option error) : ClientCallInfo * option error :=
  match members with
  | [] => (c, saved)
  | (key, v) :: rest =>
      let '(c', err) := storeMember key v c in
      storeMembers rest c' (saveError saved err)
  end.

(** One element of the array, decoded into a fresh slice element (the
    zero struct). An element that is not an object leaves it zero. *)
Definition decodeElement (v : Value) (saved : option error)
  : ClientCallInfo * option error :=
  match v with
  | JObject members => storeMembers members ClientCallInfo_zero saved
  | JNull => (ClientCallInfo_zero, saved)
  | JBool _ => (ClientCallInfo_zero, saveError saved (Some (UnmarshalTypeError "bool")))
  | JNumber _ | JNumberOutOfRange _ =>
      (ClientCallInfo_zero, saveError saved (Some (UnmarshalTypeError "number")))
  | JString _ => (ClientCallInfo_zero, saveError saved (Some (UnmarshalTypeError "string")))
  | JArray _ => (ClientCallInfo_zero, saveError saved (Some (UnmarshalTypeError "array")))
  end.

(** The elements of the array: the slice grows by one per element, whether
    or not the element decodes without error. *)
Fixpoint decodeElements (vs : list Value) (saved : option error)
  : list ClientCallInfo * option error :=
  match vs with
  | [] => ([], saved)
  | v :: rest =>
      let '(c, saved') := decodeElement v saved in
      let '(cs, saved'') := decodeElements rest saved' in
      (c :: cs, saved'')
  end.

(** [decoder.Decode(&t)] for [var t []ClientCallInfo]: the slice [t] holds
    afterwards, and the error returned. *)
Definition Decode (body : Body) : list ClientCallInfo * option error :=
  match body with
  | Invalid => ([], Some SyntaxError)
  | Valid (JArray vs) => decodeElements vs None
  | Valid JNull => ([], None)
  | Valid (JBool _) => ([], Some (UnmarshalTypeError "bool"))
  | Valid (JNumber _) | Valid (JNumberOutOfRange _) =>
      ([], Some (UnmarshalTypeError "number"))
  | Valid (JString _) => ([], Some (UnmarshalTypeError "string"))
  | Valid (JObject _) => ([], Some (UnmarshalTypeError "object"))
  end.

End json.

(** ** Package [appdash]: identifiers, recorders and the collector *)

Module appdash.

(** A 64-bit identifier, by its value: a [uint64] in the code. *)
Definition ID : Type := Z.

Definition is_uint64 (id : ID) : Prop := 0 <= id < 2 ^ 64.

(** [appdash.SpanID]: the trace a span belongs to, its own id and the id
    of its parent (zero for a root). *)
Record SpanID : Type := {
  Trace : ID;
  Span : ID;
  Parent : ID
}.

(** What a recorder attaches to its span: [rec.Name(s)] and
    [rec.Event(e)]. *)
Inductive Annotation : Type :=
| AName (name : string)
| AEvent (e : ServerEvent).

(** [appdash.Recorder]: the span it records for and what it has been given
    so far. The collector is the one global of main.go (line 97). *)
Record Recorder : Type := {
  Recorder_SpanID : SpanID;
  annotations : list Annotation
}.

End appdash.

(** ** The state [Endpoint] runs in *)

(** What the handler reads and writes outside its locals: the identifier
    generator of appdash (the 64-bit values it will yield, and how many were
    drawn), the wall clock (what the next call of [time.Now] returns, what
    the calls after it return, and how many calls were made), the spans
    handed to the global [collector], and the lines printed through
    [log]. *)
Record World : Type := {
  random : nat -> appdash.ID;
  drawn : nat;
  clock : time.Time;
  ticks : nat -> time.Time;
  reads : nat;
  collected : list (appdash.SpanID * list appdash.Annotation);
  logged : list (string * json.error)
}.

(** State passing. *)
Definition M (A : Type) : Type := World -> A * World.

#[global] Instance M_ret : MRet M := fun A a w => (a, w).
#[global] Instance M_bind : MBind M :=
  fun A B f m w => let '(a, w') := m w in f a w'.

(** [generateID] of appdash: the next value of the generator. *)
Definition generateID : M appdash.ID :=
  fun w =>
    (random w (drawn w),
     {| random := random w; drawn := S (drawn w); clock := clock w;
        ticks := ticks w; reads := reads w;
        collected := collected w; logged := logged w |}).

(** Modelled from the spec: [NewTraceID] of the IdentifierAllocator,
    [appdash.NewRootSpanID] in the code (the package is imported, its source
    is not in the repository): a fresh trace id and a fresh id for the root
    span, which has no parent. *)
Definition NewRootSpanID : M appdash.SpanID :=
  trace ← generateID;
  span ← generateID;
  mret {| appdash.Trace := trace; appdash.Span := span; appdash.Parent := 0 |}.

(** Modelled from the spec: [NewChildID] of the IdentifierAllocator,
    [appdash.NewSpanID] in the code: a fresh id in the trace of [parent],
    with [parent]'s span id as its parent. *)
Definition NewSpanID (parent : appdash.SpanID) : M appdash.SpanID :=
  span ← generateID;
  mret {| appdash.Trace := appdash.Trace parent; appdash.Span := span;
          appdash.Parent := appdash.Span parent |}.

(** [appdash.NewRecorder(span, collector)]. *)
Definition NewRecorder (span : appdash.SpanID) : appdash.Recorder :=
  {| appdash.Recorder_SpanID := span; appdash.annotations := [] |}.

(** [rec.Name(name)]. *)
Definition Recorder_Name (r : appdash.Recorder) (name : string) : appdash.Recorder :=
  {| appdash.Recorder_SpanID := appdash.Recorder_SpanID r;
     appdash.annotations := appdash.annotations r ++ [appdash.AName name] |}.

(** [rec.Event(e)]. *)
Definition Recorder_Event (r : appdash.Recorder) (e : ServerEvent) : appdash.Recorder :=
  {| appdash.Recorder_SpanID := appdash.Recorder_SpanID r;
     appdash.annotations := appdash.annotations r ++ [appdash.AEvent e] |}.

(** Modelled from the spec: [Collect] of the CollectorFacade, reached by
    [rec.Finish()] in the code: the finished span, with what was recorded
    for it, is handed to the collector. *)
Definition Recorder_Finish (r : appdash.Recorder) : M unit :=
  fun w =>
    (tt,
     {| random := random w; drawn := drawn w; clock := clock w;
        ticks := ticks w; reads := reads w;
        collected := collected w ++ [(appdash.Recorder_SpanID r, appdash.annotations r)];
        logged := logged w |}).

(** [time.Now()]: the present reading of the clock, which then moves on
    to its next reading. *)
Definition time_Now : M time.Time :=
  fun w =>
    (clock w,
     {| random := random w; drawn := drawn w; clock := ticks w (reads w);
        ticks := ticks w; reads := S (reads w);
        collected := collected w; logged := logged w |}).

(** [log.Println(msg, err)]. *)
Definition log_Println (msg : string) (err : json.error) : M unit :=
  fun w =>
    (tt,
     {| random := random w; drawn := drawn w; clock := clock w;
        ticks := ticks w; reads := reads w;
        collected := collected w; logged := logged w ++ [(msg, err)] |}).

(** [for i := 0; i < len(t); i++ { body(t[i]) }]. *)
Fixpoint forEach {A : Type} (body : A -> M unit) (t : list A) : M unit :=
  match t with
  | [] => mret tt
  | ti :: rest => body ti ;; forEach body rest
  end.

(** ** [Endpoint] (main.go, lines 282-319) *)

(** The body of the loop, lines 292-314, for the entry [ti = t[i]]. *)
Definition Endpoint_entry {P : Platform} (traceID : appdash.SpanID)
  (startTime : time.Time) (ti : ClientCallInfo) : M unit :=
  let e := NewServerEvent in
  let e := set_ServerRecv startTime e in
  let e := set_Route (InitiatorType ti) e in
  let e := set_User "u" e in
  let e := set_Response
             {| Response_Headers := ∅; Response_ContentLength := 0;
                StatusCode := 200 |} e in
  let e := set_Request
             {| Method := "GET"; Proto := "HTTP/1.1"; URI := Name ti;
                Host := "example.com";
                Headers := {[ "X-Req-Header" := "a" ]};
                RemoteAddr := EmptyString; ContentLength := 0 |} e in
  let duration := EndTime ti in
  let c := int64_of_float64 duration in
  let e := set_ServerSend
             (time.Unix 0
                (Int64.mul
                   (Int64.add (Int64.div (time.UnixNano startTime) 1000000) c)
                   1000000)) e in
  traceIDto ← NewSpanID traceID;
  let rec := NewRecorder traceIDto in
  let rec := Recorder_Name rec (Name ti) in
  let rec := Recorder_Event rec e in
  Recorder_Finish rec.

(** The handler, run on the body of the request. The response writer is
    never written to. *)
Definition Endpoint {P : Platform} (body : json.Body) : M unit :=
  traceID ← NewRootSpanID;
  let '(t, err) := json.Decode body in
  match err with
  | Some err => log_Println "erooror" err
  | None => mret tt
  end ;;
  startTime ← time_Now;
  forEach (Endpoint_entry traceID startTime) t.

(** The spans one run of the handler hands to the collector: what
    [collected] holds afterwards beyond what it held before. *)
Definition handled {P : Platform} (body : json.Body) (w : World)
  : list (appdash.SpanID * list appdash.Annotation) :=
  drop (length (collected w)) (collected (snd (Endpoint body w))).

(** The entries the loop of [Endpoint] runs over: the slice [t] after
    [Decode], whatever error [Decode] returned. *)
Definition batch (body : json.Body) : list ClientCallInfo := fst (json.Decode body).

(** The value [e.ServerSend] is assigned on line 309, as a function of the
    batch start and of the entry. *)
Definition sendTime {P : Platform} (startTime : time.Time) (ti : ClientCallInfo) : time.Time :=
  time.Unix 0
    (Int64.mul
       (Int64.add (Int64.div (time.UnixNano startTime) 1000000)
          (int64_of_float64 (EndTime ti)))
       1000000).

(** The event [e] lines 292-309 build for the entry [ti]. *)
Definition entryEvent {P : Platform} (startTime : time.Time) (ti : ClientCallInfo) : ServerEvent :=
  {| Request := {| Method := "GET"; URI := Name ti; Proto := "HTTP/1.1";
                   Headers := {[ "X-Req-Header" := "a" ]};
                   Host := "example.com"; RemoteAddr := EmptyString;
                   ContentLength := 0 |};
     Response := {| Response_Headers := ∅; Response_ContentLength := 0;
                    StatusCode := 200 |};
     Route := InitiatorType ti; User := "u";
     ServerRecv := startTime; ServerSend := sendTime startTime ti |}.

(** The spans the loop records, the generator having yielded [n] values
    before the first iteration. *)
Fixpoint childSpans {P : Platform} (rnd : nat -> appdash.ID) (traceID : appdash.SpanID)
  (startTime : time.Time) (n : nat) (t : list ClientCallInfo)
  : list (appdash.SpanID * list appdash.Annotation) :=
  match t with
  | [] => []
  | ti :: rest =>
      ({| appdash.Trace := appdash.Trace traceID; appdash.Span := rnd n;
          appdash.Parent := appdash.Span traceID |},
       [appdash.AName (Name ti); appdash.AEvent (entryEvent startTime ti)])
      :: childSpans rnd traceID startTime (S n) rest
  end.

(** The root identifier [NewRootSpanID] yields in the world [w]. *)
Definition rootOf (w : World) : appdash.SpanID :=
  {| appdash.Trace := random w (drawn w);
     appdash.Span := random w (S (drawn w));
     appdash.Parent := 0 |}.

(** What the handler logs: the decode error, if there was one. *)
Definition logLines (body : json.Body) : list (string * json.error) :=
  match snd (json.Decode body) with
  | Some err => [("erooror", err)]
  | None => []
  end.

(** A well-formed entry, in the spec's sense: its name is not empty. *)
Definition wellFormed (ti : ClientCallInfo) : bool :=
  negb (String.eqb (Name ti) EmptyString).

(** ** The store

    [main] (lines 106-110) builds an [appdash.RecentStore] over an
    [appdash.MemoryStore], with [MinEvictAge: 300 * time.Second]. *)

(** [300 * time.Second], in nanoseconds. *)
Definition MinEvictAge : Z := 300 * 1000000000.

Module EvictingSpanStore.

(** A span as the collector receives it. *)
Definition Span : Type := (appdash.SpanID * list appdash.Annotation)%type.

(** Modelled from the spec: the StoreEntry of section 3, a trace (the spans
    collected for one trace identifier) and the time it was inserted at.
    The store of the code is appdash's, whose source is not in the
    repository. *)
Record StoreEntry : Type := {
  trace : list Span;
  insertedAt : Z
}.

(** Modelled from the spec: [Collect] of section 4.4, which inserts or
    appends the span into the bucket of its trace identifier and refreshes
    [insertedAt] of that bucket to now. *)
Definition Collect (now : Z) (span : Span) (st : gmap appdash.ID StoreEntry)
  : gmap appdash.ID StoreEntry :=
  let tid := appdash.Trace (fst span) in
  match st !! tid with
  | Some b => <[tid := {| trace := trace b ++ [span]; insertedAt := now |}]> st
  | None => <[tid := {| trace := [span]; insertedAt := now |}]> st
  end.

(** Modelled from the spec: [Traces] of section 4.4, a snapshot of all live
    traces, by trace identifier. *)
Definition Traces (st : gmap appdash.ID StoreEntry) : gmap appdash.ID (list Span) :=
  trace <$> st.

(** Modelled from the spec: a bucket is stale when its [insertedAt] is
    older than [minAge] relative to [now]. *)
Definition stale (now minAge : Z) (b : StoreEntry) : Prop :=
  minAge < now - insertedAt b.

#[global] Instance stale_dec now minAge b : Decision (stale now minAge b).
Proof. unfold stale. apply _. Defined.

(** Modelled from the spec: [Evict] of section 4.4, which removes every
    stale bucket. *)
Definition Evict (now minAge : Z) (st : gmap appdash.ID StoreEntry)
  : gmap appdash.ID StoreEntry :=
  filter (fun kb => ¬ stale now minAge (snd kb)) st.

(** The operations that change the store, with the time they run at. *)
Inductive Op : Type :=
| OpCollect (now : Z) (span : Span)
| OpEvict (now minAge : Z).

Definition step (st : gmap appdash.ID StoreEntry) (op : Op) : gmap appdash.ID StoreEntry :=
  match op with
  | OpCollect now span => Collect now span st
  | OpEvict now minAge => Evict now minAge st
  end.

Definition run (ops : list Op) (st : gmap appdash.ID StoreEntry) : gmap appdash.ID StoreEntry :=
  fold_left step ops st.

(** Whether an operation collects a span of the trace [tid]. *)
Definition collects (tid : appdash.ID) (op : Op) : Prop :=
  match op with
  | OpCollect _ span => appdash.Trace (fst span) = tid
  | OpEvict _ _ => False
  end.

End EvictingSpanStore.

(** ** Sample requests *)

(** A world at wall-clock time [t0] (nanoseconds since the epoch), with
    nothing collected or logged yet; its clock gains 1000 ns and more from
    one reading to the next, and its generator counts, in 64 bits, from
    4096. *)
Definition sampleWorld (t0 : Z) : World :=
  {| random := fun n => (4096 + Z.of_nat n) mod 2 ^ 64; drawn := 0;
     clock := {| time.ns := t0 |};
     ticks := fun n => {| time.ns := t0 + 1000 * (1 + Z.of_nat n) |};
     reads := 0;
     collected := []; logged := [] |}.

(** One object of the array loadPerformanceData.js posts, with [endTime]
    (the duration) [m * 2^e] milliseconds. *)
Definition resourceEntry (name : string) (m e : Z) (initiatorType : string) : json.Value :=
  json.JObject
    [("name", json.JString name);
     ("entryType", json.JString "resource");
     ("startTime", json.JNumber (float64_of_Z 12));
     ("endTime", json.JNumber (float64_of_dyadic m e));
     ("initiatorType", json.JString initiatorType)].

(** The batch of the spec's scenario: [a.js], 150 ms, and an entry with an
    empty name, 10 ms. *)
Definition scenarioBody : json.Body :=
  json.Valid (json.JArray [resourceEntry "a.js" 150 0 "script";
                           resourceEntry EmptyString 10 0 "img"]).

(** A batch whose only entry has an empty name. *)
Definition namelessBody : json.Body :=
  json.Valid (json.JArray [resourceEntry EmptyString 10 0 "img"]).

Definition backwardsBody : json.Body :=
  json.Valid (json.JArray [resourceEntry "a.css" (-200) 0 "css"]).
Definition halfMilliBody : json.Body :=
  json.Valid (json.JArray [resourceEntry "a.png" 1 (-1) "img"]).
Definition hugeBody : json.Body :=
  json.Valid (json.JArray [resourceEntry "a.js" 10000000000000 0 "script"]).

(** A batch whose entry carries a string where the duration should be:
    [[{"name":"a.js","endTime":"fast","initiatorType":"script"}]]. *)
Definition mistypedBody : json.Body :=
  json.Valid (json.JArray
    [json.JObject [("name", json.JString "a.js");
                   ("endTime", json.JString "fast");
                   ("initiatorType", json.JString "script")]]).

(** A span of the trace [tid], and a store holding it, inserted at time 0. *)
Definition sampleSpan (tid : appdash.ID) : EvictingSpanStore.Span :=
  ({| appdash.Trace := tid; appdash.Span := tid + 1; appdash.Parent := 0 |}, []).

Definition sampleStore : gmap appdash.ID EvictingSpanStore.StoreEntry :=
  EvictingSpanStore.Collect 0 (sampleSpan 7) ∅.

(** The sample world after other work: a span collected, a line logged,
    the clock read three times. *)
Definition sampleWorldBusy (t0 : Z) : World :=
  {| random := random (sampleWorld t0); drawn := 0;
     clock := {| time.ns := t0 |};
     ticks := fun n => {| time.ns := t0 + 5 |};
     reads := 3;
     collected := [sampleSpan 7];
     logged := [("erooror", json.SyntaxError)] |}.

(** ** The page's script

    loadPerformanceData.js (and, with another URL, the script of the page
    [Home] renders, main.go lines 230-262): for each resource entry of
    [window.performance] it builds an item, pushes it on an array, and posts
    [JSON.stringify] of the array to [/endpoint]. *)

Module js.

(** The properties of a [PerformanceResourceTiming] entry the script
    reads. *)
Record ResourceTiming : Type := {
  name : string;
  entryType : string;
  fetchStart : float64;
  duration : float64;
  initiatorType : string
}.

(** [JSON.stringify] of a number: a finite number is written so that it
    reads back as itself, zero of either sign as [0], and a number that is
    not finite as [null]. *)
Definition stringify_number (x : float64) : json.Value :=
  match x with
  | S754_zero _ => json.JNumber (S754_zero false)
  | S754_finite _ _ _ => json.JNumber x
  | S754_infinity _ | S754_nan => json.JNull
  end.

(** The item built for [val]: [endTime] is the entry's duration and
    [startTime] its [fetchStart]. *)
Definition item (val : ResourceTiming) : json.Value :=
  json.JObject
    [("name", json.JString (name val));
     ("entryType", json.JString (entryType val));
     ("startTime", stringify_number (fetchStart val));
     ("endTime", stringify_number (duration val));
     ("initiatorType", json.JString (initiatorType val))].

(** The body posted for the entries [arr]. *)
Definition payload (arr : list ResourceTiming) : json.Body :=
  json.Valid (json.JArray (map item arr)).

End js.

(** A number as the handler receives it from the script: itself when
    finite, zero otherwise. *)
Definition receivedNumber (x : float64) : float64 :=
  match x with
  | S754_finite _ _ _ => x
  | S754_zero _ | S754_infinity _ | S754_nan => S754_zero false
  end.

(** The [ClientCallInfo] the handler receives for the entry [val]. *)
Definition received (val : js.ResourceTiming) : ClientCallInfo :=
  {| Name := js.name val; EntryType := js.entryType val;
     StartTime := receivedNumber (js.fetchStart val);
     EndTime := receivedNumber (js.duration val);
     InitiatorType := js.initiatorType val |}.

(** The handler, run on [body] in the world [w], recorded the event [e]
    for the entry [ti] of the batch. *)
Definition recorded {P : Platform} (body : json.Body) (w : World)
  (ti : ClientCallInfo) (e : ServerEvent) : Prop :=
  exists (i : nat) (sp : appdash.SpanID * list appdash.Annotation),
    batch body !! i = Some ti /\
    handled body w !! i = Some sp /\
    snd sp = [appdash.AName (Name ti); appdash.AEvent e].

(** Two entries that agree on what the loop of [Endpoint] reads. *)
Definition sameReadFields (a b : ClientCallInfo) : Prop :=
  Name a = Name b /\ EndTime a = EndTime b /\ InitiatorType a = InitiatorType b.

(** Two worlds with the same identifier generator, at the same point, and
    the same clock. *)
Definition sameInputs (w1 w2 : World) : Prop :=
  random w1 = random w2 /\ drawn w1 = drawn w2 /\ clock w1 = clock w2.

(** ** More sample requests *)

(** The batch of the scenario as another client could post it: other key
    case and order, another [startTime] and [entryType], a key the struct
    does not have. *)
Definition scenarioBodyVariant : json.Body :=
  json.Valid (json.JArray
    [json.JObject [("InitiatorType", json.JString "script");
                   ("ENDTIME", json.JNumber (float64_of_Z 150));
                   ("Name", json.JString "a.js");
                   ("startTime", json.JNumber (float64_of_Z 999));
                   ("entryType", json.JString "navigation");
                   ("transferSize", json.JNumber (float64_of_Z 4096))];
     json.JObject [("endTime", json.JNumber (float64_of_Z 10));
                   ("initiatorType", json.JString "img")]]).

(** Durations of 150 ms and of 150.75 ms. *)
Definition fractionBody : json.Body :=
  json.Valid (json.JArray [resourceEntry "a.js" 150 0 "script";
                           resourceEntry "b.js" 603 (-2) "script"]).

(** A duration of 2^1000 ms. *)
Definition astronomicBody : json.Body :=
  json.Valid (json.JArray [resourceEntry "a.js" 1 1000 "script"]).

(** A duration of -0.75 ms. *)
Definition negativeFractionBody : json.Body :=
  json.Valid (json.JArray [resourceEntry "a.js" (-3) (-2) "script"]).

(** Two resource entries as the browser reports them. *)
Definition sampleResources : list js.ResourceTiming :=
  [{| js.name := "https://example.com/a.js"; js.entryType := "resource";
      js.fetchStart := float64_of_dyadic 25 (-1);
      js.duration := float64_of_dyadic 603 (-2);
      js.initiatorType := "script" |};
   {| js.name := "https://example.com/a.css"; js.entryType := "resource";
      js.fetchStart := float64_of_Z 13;
      js.duration := S754_zero false;
      js.initiatorType := "link" |}].

(** The entries [Decode] makes of the sample bodies. *)
Definition sampleEntry (name : string) (m e : Z) (initiatorType : string) : ClientCallInfo :=
  {| Name := name; EntryType := "resource"; StartTime := float64_of_Z 12;
     EndTime := float64_of_dyadic m e; InitiatorType := initiatorType |}.

(** The exact value of a sample duration. *)
Definition sampleValue (m e : Z) : Q :=
  match float64_value (float64_of_dyadic m e) with
  | Some q => q
  | None => 0%Q
  end.

(** * Properties *)

(** ** Arithmetic on [int64] *)

Lemma wrap_in_range (z : Z) : Int64.in_range z -> Int64.wrap z = z.
Proof.
  unfold Int64.in_range, Int64.wrap, Int64.min_int, Int64.max_int.
  intros H. rewrite Z.mod_small; lia.
Qed.

Lemma wrap_range (z : Z) : Int64.in_range (Int64.wrap z).
Proof.
  unfold Int64.in_range, Int64.wrap, Int64.min_int, Int64.max_int.
  pose proof (Z.mod_pos_bound (z + 2 ^ 63) (2 ^ 64)). lia.
Qed.

(** The milliseconds of a non-negative [int64] nanosecond count. *)
Lemma millis_bounds (t : Z) :
  0 <= t <= Int64.max_int ->
  0 <= t ÷ 1000000 <= 9223372036854 /\ t = (t ÷ 1000000) * 1000000 + t mod 1000000.
Proof.
  unfold Int64.max_int. intros H.
  rewrite Z.quot_div_nonneg by lia.
  pose proof (Z.div_mod t 1000000 ltac:(lia)).
  pose proof (Z.mod_pos_bound t 1000000 ltac:(lia)).
  assert (0 <= t / 1000000) by (apply Z.div_pos; lia).
  assert (t / 1000000 < 9223372036855) by (apply Z.div_lt_upper_bound; lia).
  lia.
Qed.

(** Line 309, when nothing overflows: the batch start cut to whole
    milliseconds, plus [c] milliseconds. *)
Lemma send_no_overflow (t c : Z) :
  0 <= t <= Int64.max_int ->
  Int64.in_range ((t ÷ 1000000 + c) * 1000000) ->
  Int64.mul (Int64.add (Int64.div (Int64.wrap t) 1000000) c) 1000000
  = (t ÷ 1000000 + c) * 1000000.
Proof.
  intros Ht Hs.
  destruct (millis_bounds t Ht) as [Hq _].
  assert (Hr : Int64.in_range t)
    by (unfold Int64.in_range, Int64.min_int, Int64.max_int in *; lia).
  unfold Int64.mul, Int64.add, Int64.div.
  rewrite (wrap_in_range t Hr).
  rewrite (wrap_in_range (t ÷ 1000000))
    by (unfold Int64.in_range, Int64.min_int, Int64.max_int; lia).
  rewrite (wrap_in_range (t ÷ 1000000 + c))
    by (unfold Int64.in_range, Int64.min_int, Int64.max_int in *; lia).
  apply wrap_in_range, Hs.
Qed.

(** ** Running the handler *)

Lemma Endpoint_entry_run {P : Platform} traceID startTime ti w :
  Endpoint_entry traceID startTime ti w =
  (tt,
   {| random := random w; drawn := S (drawn w); clock := clock w;
      ticks := ticks w; reads := reads w;
      collected := collected w
        ++ childSpans (random w) traceID startTime (drawn w) [ti];
      logged := logged w |}).
Proof. reflexivity. Qed.

Lemma forEach_run {P : Platform} traceID startTime t : forall w,
  forEach (Endpoint_entry traceID startTime) t w =
  (tt,
   {| random := random w; drawn := (length t + drawn w)%nat; clock := clock w;
      ticks := ticks w; reads := reads w;
      collected := collected w
        ++ childSpans (random w) traceID startTime (drawn w) t;
      logged := logged w |}).
Proof.
  induction t as [|ti rest IH]; intros w.
  - cbn. rewrite app_nil_r. by destruct w.
  - change (forEach (Endpoint_entry traceID startTime) (ti :: rest) w)
      with (forEach (Endpoint_entry traceID startTime) rest
              (snd (Endpoint_entry traceID startTime ti w))).
    rewrite IH, Endpoint_entry_run. cbn.
    rewrite <- app_assoc, Nat.add_succ_r. reflexivity.
Qed.

Lemma Endpoint_run {P : Platform} body w :
  Endpoint body w =
  (tt,
   {| random := random w;
      drawn := (length (batch body) + S (S (drawn w)))%nat;
      clock := ticks w (reads w);
      ticks := ticks w;
      reads := S (reads w);
      collected := collected w
        ++ childSpans (random w) (rootOf w) (clock w) (S (S (drawn w))) (batch body);
      logged := logged w ++ logLines body |}).
Proof.
  unfold Endpoint, batch, logLines.
  destruct (json.Decode body) as [t [err|]];
    unfold NewRootSpanID, generateID, time_Now, log_Println, mbind, M_bind,
      mret, M_ret; cbn -[forEach];
    rewrite forEach_run; cbn; [reflexivity|].
  rewrite app_nil_r. reflexivity.
Qed.

Lemma handled_eq {P : Platform} body w :
  handled body w =
  childSpans (random w) (rootOf w) (clock w) (S (S (drawn w))) (batch body).
Proof.
  unfold handled. rewrite Endpoint_run. cbn. apply drop_app_length.
Qed.

Lemma collected_handled {P : Platform} body w :
  collected (snd (Endpoint body w)) = (collected w ++ handled body w)%list.
Proof. rewrite handled_eq, Endpoint_run. reflexivity. Qed.

Lemma childSpans_length {P : Platform} rnd traceID startTime t : forall n,
  length (childSpans rnd traceID startTime n t) = length t.
Proof. induction t; intros n; cbn; [|rewrite IHt]; reflexivity. Qed.

(** Entry by entry: each entry of the batch has its span, in order. *)
Lemma childSpans_Forall2 {P : Platform} rnd traceID startTime t : forall n,
  Forall2
    (fun ti sp =>
       appdash.Trace (fst sp) = appdash.Trace traceID /\
       appdash.Parent (fst sp) = appdash.Span traceID /\
       snd sp = [appdash.AName (Name ti); appdash.AEvent (entryEvent startTime ti)])
    t (childSpans rnd traceID startTime n t).
Proof.
  induction t as [|ti rest IH]; intros n; cbn; constructor; auto.
Qed.

(** ** [float64] values and their integer part *)

Lemma shiftl_neg_div (m : positive) (e : Z) :
  e < 0 -> Z.shiftl (Zpos m) e = Zpos m / Zpos (Z.to_pos (2 ^ (- e))).
Proof.
  intros He.
  assert (Hp : 0 < 2 ^ (- e)) by (apply Z.pow_pos_nonneg; lia).
  rewrite Z2Pos.id by exact Hp.
  rewrite <- (Z.opp_involutive e) at 1.
  rewrite Z.shiftl_opp_r, Z.shiftr_div_pow2 by lia. reflexivity.
Qed.

(** [float64_trunc] rounds the exact value toward zero. *)
Lemma float64_trunc_value (f : float64) (q : Q) :
  float64_value f = Some q ->
  float64_trunc f = Some (if Qle_bool 0 q then Qfloor q else Qceiling q).
Proof.
  destruct f as [s|s| |s m e]; cbn; try discriminate.
  - intros [= <-]. reflexivity.
  - intros [= <-]. f_equal.
    destruct (Z.leb_spec 0 e) as [He|He].
    + rewrite Z.shiftl_mul_pow2 by lia.
      rewrite Qfloor_Z, Qceiling_Z. by destruct (Qle_bool _ _).
    + rewrite (shiftl_neg_div m e He).
      set (p := Z.to_pos (2 ^ (- e))).
      destruct s; cbn.
      * reflexivity.
      * reflexivity.
Qed.

(** A duration in [0, 1) has integer part zero. *)
Lemma float64_trunc_unit (f : float64) (q : Q) :
  float64_value f = Some q -> (0 <= q)%Q -> (q < 1)%Q ->
  float64_trunc f = Some 0.
Proof.
  intros Hv H0 H1. rewrite (float64_trunc_value f q Hv).
  apply Qle_bool_iff in H0 as Hb. rewrite Hb. f_equal.
  pose proof (Qfloor_resp_le _ _ H0) as Hlo.
  change (Qfloor 0) with 0 in Hlo.
  pose proof (Qfloor_le q) as Hle.
  assert (Hlt : (inject_Z (Qfloor q) < inject_Z 1)%Q)
    by (eapply Qle_lt_trans; [exact Hle | exact H1]).
  rewrite <- Zlt_Qlt in Hlt. lia.
Qed.

(** [int64(f)] is the integer part of [f] when that is an [int64]. *)
Lemma int64_of_float64_trunc {P : Platform} (f : float64) (c : Z) :
  float64_trunc f = Some c -> Int64.in_range c -> int64_of_float64 f = c.
Proof.
  intros Hc Hr. unfold int64_of_float64. rewrite Hc.
  destruct (decide (Int64.in_range c)); [reflexivity | contradiction].
Qed.

(** Whatever the platform supplies, [int64(f)] is an [int64]. *)
Lemma int64_of_float64_range {P : Platform} (f : float64) :
  Int64.in_range (int64_of_float64 f).
Proof.
  unfold int64_of_float64.
  destruct (float64_trunc f) as [z|]; [|apply wrap_range].
  destruct (decide (Int64.in_range z)); [assumption | apply wrap_range].
Qed.

(** The sample durations are binary64 values. *)
Example sample_durations_valid :
  forallb float64_valid
    [float64_of_Z 150; float64_of_Z 10; float64_of_Z (-5); float64_of_Z (-200);
     float64_of_dyadic 1 (-1); float64_of_Z 10000000000000; float64_of_Z 12]
  = true.
Proof. vm_compute. reflexivity. Qed.

(** Line 309 for an entry whose duration has integer part [c], when the
    nanosecond count fits an [int64]. *)
Lemma sendTime_exact {P : Platform} (startTime : time.Time) (ti : ClientCallInfo) (c : Z) :
  0 <= time.ns startTime <= Int64.max_int ->
  float64_trunc (EndTime ti) = Some c ->
  Int64.in_range ((time.ns startTime ÷ 1000000 + c) * 1000000) ->
  time.ns (sendTime startTime ti) = (time.ns startTime ÷ 1000000 + c) * 1000000.
Proof.
  intros Ht Hc Hs.
  destruct (millis_bounds _ Ht) as [Hq _].
  assert (Hr : Int64.in_range c)
    by (unfold Int64.in_range, Int64.min_int, Int64.max_int in *; lia).
  unfold sendTime, time.Unix, time.UnixNano. cbn [time.ns].
  rewrite (int64_of_float64_trunc _ c Hc Hr).
  rewrite send_no_overflow by assumption. lia.
Qed.

Lemma childSpans_Forall {P : Platform} rnd traceID startTime t : forall n,
  Forall
    (fun sp =>
       appdash.Trace (fst sp) = appdash.Trace traceID /\
       appdash.Parent (fst sp) = appdash.Span traceID /\
       exists ti, snd sp = [appdash.AName (Name ti);
                            appdash.AEvent (entryEvent startTime ti)])
    (childSpans rnd traceID startTime n t).
Proof.
  induction t as [|ti rest IH]; intros n; cbn; constructor; eauto.
Qed.

Lemma childSpans_lookup {P : Platform} rnd traceID startTime t : forall n i sp,
  childSpans rnd traceID startTime n t !! i = Some sp ->
  appdash.Span (fst sp) = rnd (n + i)%nat.
Proof.
  induction t as [|ti rest IH]; intros n i sp; [discriminate|].
  destruct i as [|i]; cbn.
  - intros [= <-]. cbn. by rewrite Nat.add_0_r.
  - intros H. rewrite (IH _ _ _ H). f_equal. lia.
Qed.

(** ** The spans of a batch *)

(** C1, as the code has it: no entry is treated as malformed. An entry
    whose name is empty produces a span like any other, with an empty URI,
    and the loop goes on over all entries; for the batch of the scenario,
    [a.js] and an entry with an empty name, two child spans are recorded. *)
Theorem Endpoint_keeps_empty_names {P : Platform} (body : json.Body) (w : World) :
  Forall2
    (fun ti sp =>
       exists e, snd sp = [appdash.AName (Name ti); appdash.AEvent e] /\
                 URI (Request e) = Name ti)
    (batch body) (handled body w)
  /\ length (handled scenarioBody w) = 2%nat.
Proof.
  split.
  - rewrite handled_eq.
    eapply Forall2_impl; [apply childSpans_Forall2|].
    intros ti sp (_ & _ & ->). eexists; split; reflexivity.
  - rewrite handled_eq, childSpans_length. reflexivity.
Qed.

(** C1 fails as stated: the batch of the scenario does not yield exactly
    one child span, and the number of spans is not the number of entries
    with a name. *)
Lemma scenario_empty_name_recorded :
  length (handled (P := amd64) scenarioBody (sampleWorld 1000000000)) <> 1%nat
  /\ length (handled (P := amd64) scenarioBody (sampleWorld 1000000000))
     <> length (List.filter wellFormed (batch scenarioBody)).
Proof. split; vm_compute; discriminate. Qed.

(** C4, as the code has it: the handler draws one root identifier for the
    whole batch (a trace id and a root span id, the first two values of the
    generator), then one identifier per entry of the batch, with or without
    a name; it records one child span per entry, each in the root's trace
    and with the root's span id as its parent. *)
Theorem Endpoint_one_root_per_batch {P : Platform} (body : json.Body) (w : World) :
  fst (NewRootSpanID w) = rootOf w
  /\ drawn (snd (Endpoint body w)) = (drawn w + 2 + length (batch body))%nat
  /\ length (handled body w) = length (batch body)
  /\ Forall
       (fun sp =>
          appdash.Trace (fst sp) = appdash.Trace (rootOf w) /\
          appdash.Parent (fst sp) = appdash.Span (rootOf w))
       (handled body w)
  /\ forall i sp, handled body w !! i = Some sp ->
       appdash.Span (fst sp) = random w (drawn w + 2 + i)%nat.
Proof.
  split; [reflexivity|]. split; [rewrite Endpoint_run; cbn; lia|].
  rewrite handled_eq. split; [apply childSpans_length|]. split.
  - eapply Forall_impl; [apply childSpans_Forall|].
    intros sp (? & ? & _). by split.
  - intros i sp H. rewrite (childSpans_lookup _ _ _ _ _ _ _ H).
    f_equal. lia.
Qed.

(** C4 fails as stated: a batch whose only entry has an empty name still
    yields a child span, one more than it has well-formed entries. *)
Lemma nameless_entry_has_child :
  length (handled (P := amd64) namelessBody (sampleWorld 1000000000)) = 1%nat
  /\ length (handled (P := amd64) namelessBody (sampleWorld 1000000000))
     <> length (List.filter wellFormed (batch namelessBody)).
Proof. split; vm_compute; [reflexivity | discriminate]. Qed.

(** C5: all spans built from one batch have the same [recv]: the handler
    reads the wall clock once per request, however many entries the batch
    has, and the span of every entry of the batch carries that one
    reading, the time at which the handler started on the batch. *)
Theorem Endpoint_shared_recv {P : Platform} (body : json.Body) (w : World) :
  reads (snd (Endpoint body w)) = S (reads w)
  /\ Forall2
       (fun ti sp =>
          exists e, snd sp = [appdash.AName (Name ti); appdash.AEvent e] /\
                    ServerRecv e = clock w)
       (batch body) (handled body w).
Proof.
  split; [by rewrite Endpoint_run|]. rewrite handled_eq.
  eapply Forall2_impl; [apply childSpans_Forall2|].
  intros ti sp (_ & _ & ->). eexists; split; reflexivity.
Qed.

(** C6: the span of an entry has the entry's [InitiatorType] as its route
    and the entry's [Name] as its request URI; its request method is "GET"
    and its response status 200, whatever the entry holds. *)
Theorem Endpoint_span_fields {P : Platform} (body : json.Body) (w : World) :
  Forall2
    (fun ti sp =>
       exists e, snd sp = [appdash.AName (Name ti); appdash.AEvent e] /\
                 Route e = InitiatorType ti /\
                 URI (Request e) = Name ti /\
                 Method (Request e) = "GET" /\
                 StatusCode (Response e) = 200)
    (batch body) (handled body w).
Proof.
  rewrite handled_eq.
  eapply Forall2_impl; [apply childSpans_Forall2|].
  intros ti sp (_ & _ & ->). eexists. repeat split; reflexivity.
Qed.

(** ** The timestamps of a span *)

(** [send - recv], for an entry whose duration has integer part [c]: [c]
    milliseconds, less the part of [recv] below the millisecond. *)
Lemma sendTime_minus_recv {P : Platform} (startTime : time.Time) (ti : ClientCallInfo) (c : Z) :
  0 <= time.ns startTime <= Int64.max_int ->
  float64_trunc (EndTime ti) = Some c ->
  Int64.in_range ((time.ns startTime ÷ 1000000 + c) * 1000000) ->
  time.ns (sendTime startTime ti) - time.ns startTime
  = c * 1000000 - time.ns startTime mod 1000000.
Proof.
  intros Ht Hc Hs. rewrite (sendTime_exact _ _ c Ht Hc Hs).
  destruct (millis_bounds _ Ht) as [_ Heq]. lia.
Qed.

(** A duration in [0, 1) adds nothing: [send] is [recv] cut to whole
    milliseconds. *)
Lemma sendTime_unit {P : Platform} (startTime : time.Time) (ti : ClientCallInfo) (q : Q) :
  0 <= time.ns startTime <= Int64.max_int ->
  float64_value (EndTime ti) = Some q -> (0 <= q)%Q -> (q < 1)%Q ->
  time.ns (sendTime startTime ti) = time.ns startTime - time.ns startTime mod 1000000.
Proof.
  intros Ht Hv H0 H1.
  pose proof (float64_trunc_unit _ _ Hv H0 H1) as Hc.
  destruct (millis_bounds _ Ht) as [Hq Heq].
  rewrite (sendTime_exact _ _ 0 Ht Hc).
  - lia.
  - pose proof (Z.mod_pos_bound (time.ns startTime) 1000000 ltac:(lia)).
    unfold Int64.in_range, Int64.min_int, Int64.max_int in *. lia.
Qed.




(** C3, as the code has it: the handler neither rejects nor clamps a span.
    Where the nanosecond count fits an [int64], [send >= recv] holds exactly
    when the integer part of the duration, in milliseconds, covers the part
    of [recv] below the millisecond: always for a duration of a millisecond
    or more, never for a negative one; the span is recorded either way. *)
Theorem Endpoint_send_recv_order {P : Platform} (body : json.Body) (w : World) :
  0 <= time.ns (clock w) <= Int64.max_int ->
  length (handled body w) = length (batch body)
  /\ Forall2
       (fun ti sp =>
          exists e, snd sp = [appdash.AName (Name ti); appdash.AEvent e] /\
            forall c, float64_trunc (EndTime ti) = Some c ->
              Int64.in_range ((time.ns (clock w) ÷ 1000000 + c) * 1000000) ->
              (time.ns (ServerRecv e) <= time.ns (ServerSend e)
               <-> time.ns (clock w) mod 1000000 <= c * 1000000) /\
              (1 <= c -> time.ns (ServerRecv e) <= time.ns (ServerSend e)) /\
              (c < 0 -> time.Before (ServerSend e) (ServerRecv e)))
       (batch body) (handled body w).
Proof.
  intros Ht. rewrite handled_eq. split; [apply childSpans_length|].
  eapply Forall2_impl; [apply childSpans_Forall2|].
  intros ti sp (_ & _ & ->). eexists. split; [reflexivity|].
  intros c Hc Hs. unfold time.Before. cbn [ServerSend ServerRecv entryEvent].
  pose proof (sendTime_minus_recv _ _ c Ht Hc Hs) as Hd.
  pose proof (Z.mod_pos_bound (time.ns (clock w)) 1000000 ltac:(lia)).
  repeat split; intros; lia.
Qed.

(** At a present-day batch start, for the batch of the scenario. *)
Lemma Endpoint_send_recv_order_witness :
  0 <= time.ns (clock (sampleWorld 1500000000123456789)) <= Int64.max_int
  /\ length (handled (P := amd64) scenarioBody (sampleWorld 1500000000123456789))
     = length (batch scenarioBody)
  /\ Forall2
       (fun ti sp =>
          exists e, snd sp = [appdash.AName (Name ti); appdash.AEvent e] /\
            forall c, float64_trunc (EndTime ti) = Some c ->
              Int64.in_range ((1500000000123456789 ÷ 1000000 + c) * 1000000) ->
              (time.ns (ServerRecv e) <= time.ns (ServerSend e)
               <-> 1500000000123456789 mod 1000000 <= c * 1000000) /\
              (1 <= c -> time.ns (ServerRecv e) <= time.ns (ServerSend e)) /\
              (c < 0 -> time.Before (ServerSend e) (ServerRecv e)))
       (batch scenarioBody)
       (handled (P := amd64) scenarioBody (sampleWorld 1500000000123456789)).
Proof.
  assert (H : 0 <= time.ns (clock (sampleWorld 1500000000123456789)) <= Int64.max_int)
    by (vm_compute; split; discriminate).
  split; [exact H|].
  exact (Endpoint_send_recv_order (P := amd64) scenarioBody
           (sampleWorld 1500000000123456789) H).
Defined.

(** C3 fails as stated: for a duration of -200 ms the span is recorded
    with [send] before [recv]. *)
Lemma backwards_span_recorded :
  ~ Forall
      (fun sp =>
         forall e, In (appdash.AEvent e) (snd sp) ->
           time.ns (ServerRecv e) <= time.ns (ServerSend e))
      (handled (P := amd64) backwardsBody (sampleWorld 1000000000)).
Proof.
  rewrite handled_eq. intros H.
  apply Forall_cons_1 in H as [H _].
  specialize (H _ (or_intror (or_introl eq_refl))).
  vm_compute in H. apply H. reflexivity.
Qed.

(** C10, as the code has it: [recv] is the batch start, to the nanosecond;
    where the nanosecond count fits an [int64], [send] is the batch start
    cut to whole milliseconds plus the integer part of the duration, in
    milliseconds, and so lies on a millisecond boundary. For a batch start
    off the millisecond boundary and a duration in [0, 1), [send] is before
    [recv]. *)
Theorem Endpoint_send_millisecond {P : Platform} (body : json.Body) (w : World) :
  0 <= time.ns (clock w) <= Int64.max_int ->
  Forall2
    (fun ti sp =>
       exists e, snd sp = [appdash.AName (Name ti); appdash.AEvent e] /\
         ServerRecv e = clock w /\
         (forall c, float64_trunc (EndTime ti) = Some c ->
            Int64.in_range ((time.ns (clock w) ÷ 1000000 + c) * 1000000) ->
            time.ns (ServerSend e) = (time.ns (clock w) ÷ 1000000 + c) * 1000000 /\
            time.ns (ServerSend e) mod 1000000 = 0) /\
         (forall q, float64_value (EndTime ti) = Some q ->
            (0 <= q)%Q -> (q < 1)%Q ->
            time.ns (clock w) mod 1000000 <> 0 ->
            time.Before (ServerSend e) (ServerRecv e)))
    (batch body) (handled body w).
Proof.
  intros Ht. rewrite handled_eq.
  eapply Forall2_impl; [apply childSpans_Forall2|].
  intros ti sp (_ & _ & ->). eexists. split; [reflexivity|].
  split; [reflexivity|]. cbn [ServerSend ServerRecv entryEvent]. split.
  - intros c Hc Hs. rewrite (sendTime_exact _ _ c Ht Hc Hs).
    split; [reflexivity | apply Z.mod_mul; lia].
  - intros q Hv H0 H1 Hsub. unfold time.Before.
    rewrite (sendTime_unit _ _ q Ht Hv H0 H1).
    pose proof (Z.mod_pos_bound (time.ns (clock w)) 1000000 ltac:(lia)). lia.
Qed.

(** At a batch start 456789 ns past the millisecond, for a duration of
    half a millisecond. *)
Lemma Endpoint_send_millisecond_witness :
  0 <= time.ns (clock (sampleWorld 1500000000123456789)) <= Int64.max_int
  /\ Forall2
       (fun ti sp =>
          exists e, snd sp = [appdash.AName (Name ti); appdash.AEvent e] /\
            ServerRecv e = clock (sampleWorld 1500000000123456789) /\
            (forall c, float64_trunc (EndTime ti) = Some c ->
               Int64.in_range ((1500000000123456789 ÷ 1000000 + c) * 1000000) ->
               time.ns (ServerSend e) = (1500000000123456789 ÷ 1000000 + c) * 1000000 /\
               time.ns (ServerSend e) mod 1000000 = 0) /\
            (forall q, float64_value (EndTime ti) = Some q ->
               (0 <= q)%Q -> (q < 1)%Q ->
               1500000000123456789 mod 1000000 <> 0 ->
               time.Before (ServerSend e) (ServerRecv e)))
       (batch halfMilliBody)
       (handled (P := amd64) halfMilliBody (sampleWorld 1500000000123456789)).
Proof.
  assert (H : 0 <= time.ns (clock (sampleWorld 1500000000123456789)) <= Int64.max_int)
    by (vm_compute; split; discriminate).
  split; [exact H|].
  exact (Endpoint_send_millisecond (P := amd64) halfMilliBody
           (sampleWorld 1500000000123456789) H).
Defined.

(** C10 fails as stated: for a duration of 10^13 ms the multiplication on
    line 309 overflows, and [send] is off the millisecond boundary. *)
Lemma huge_duration_off_millisecond :
  ~ Forall
      (fun sp =>
         forall e, In (appdash.AEvent e) (snd sp) ->
           time.ns (ServerSend e) mod 1000000 = 0)
      (handled (P := amd64) hugeBody (sampleWorld 1500000000123456789)).
Proof.
  rewrite handled_eq. intros H.
  apply Forall_cons_1 in H as [H _].
  specialize (H _ (or_intror (or_introl eq_refl))).
  vm_compute in H. discriminate.
Qed.

(** ** A body that does not decode *)

(** C7, as the code has it: when [Decode] returns an error the handler
    logs it and goes on to the end; it has no failing path and reports
    nothing to the caller, and what was collected before stays collected. It records one span per entry [Decode] left in the slice: none
    for a body that is not JSON or is not an array, but the entries of an
    array are recorded even when one of them made [Decode] fail. *)
Theorem Endpoint_decode_error {P : Platform} (body : json.Body) (w : World)
  (err : json.error) :
  snd (json.Decode body) = Some err ->
  logged (snd (Endpoint body w)) = (logged w ++ [("erooror", err)])%list
  /\ collected (snd (Endpoint body w)) = (collected w ++ handled body w)%list
  /\ length (handled body w) = length (batch body)
  /\ ((forall vs, body <> json.Valid (json.JArray vs)) -> handled body w = []).
Proof.
  intros Herr.
  split; [rewrite Endpoint_run; unfold logLines; by rewrite Herr|].
  split; [apply collected_handled|].
  rewrite handled_eq. split; [apply childSpans_length|].
  intros Hna. unfold batch.
  destruct body as [|[]]; try reflexivity.
  by destruct (Hna vs).
Qed.

(** For a body that is not JSON. *)
Lemma Endpoint_decode_error_witness :
  snd (json.Decode json.Invalid) = Some json.SyntaxError
  /\ logged (snd (Endpoint (P := amd64) json.Invalid (sampleWorld 1000000000)))
     = (logged (sampleWorld 1000000000) ++ [("erooror", json.SyntaxError)])%list
  /\ collected (snd (Endpoint (P := amd64) json.Invalid (sampleWorld 1000000000)))
     = (collected (sampleWorld 1000000000)
        ++ handled (P := amd64) json.Invalid (sampleWorld 1000000000))%list
  /\ length (handled (P := amd64) json.Invalid (sampleWorld 1000000000))
     = length (batch json.Invalid)
  /\ ((forall vs, json.Invalid <> json.Valid (json.JArray vs)) ->
      handled (P := amd64) json.Invalid (sampleWorld 1000000000) = []).
Proof.
  split; [reflexivity|].
  exact (Endpoint_decode_error (P := amd64) json.Invalid (sampleWorld 1000000000)
           json.SyntaxError eq_refl).
Defined.

(** C7 fails as stated: an array whose entry has a string for [endTime]
    makes [Decode] return an error, and its entry is recorded as a span
    all the same. *)
Lemma mistyped_batch_recorded :
  ~ (snd (json.Decode mistypedBody) <> None ->
     handled (P := amd64) mistypedBody (sampleWorld 1000000000) = []).
Proof.
  intros H. assert (Hne : snd (json.Decode mistypedBody) <> None) by (vm_compute; discriminate).
  specialize (H Hne). rewrite handled_eq in H. vm_compute in H. discriminate.
Qed.

(** ** Eviction *)

Section Store.
Import EvictingSpanStore.

Lemma Evict_lookup (now minAge : Z) (st : gmap appdash.ID StoreEntry) (tid : appdash.ID) :
  Evict now minAge st !! tid =
  match st !! tid with
  | Some b => if decide (stale now minAge b) then None else Some b
  | None => None
  end.
Proof.
  unfold Evict. destruct (st !! tid) as [b|] eqn:Hb.
  - destruct (decide (stale now minAge b)) as [Hs|Hs].
    + apply map_lookup_filter_None. right. intros b' Hb'.
      rewrite Hb in Hb'. injection Hb' as <-. cbn. tauto.
    + apply map_lookup_filter_Some. by split.
  - apply map_lookup_filter_None. by left.
Qed.

Lemma Collect_lookup_ne (now : Z) (span : Span) (st : gmap appdash.ID StoreEntry)
  (tid : appdash.ID) :
  appdash.Trace (fst span) <> tid -> Collect now span st !! tid = st !! tid.
Proof.
  intros Hne. unfold Collect.
  destruct (st !! appdash.Trace (fst span)); by rewrite lookup_insert_ne.
Qed.

(** An absent trace stays absent until a span is collected for it. *)
Lemma run_absent (tid : appdash.ID) (ops : list Op) :
  Forall (fun op => ~ collects tid op) ops ->
  forall st : gmap appdash.ID StoreEntry, st !! tid = None -> run ops st !! tid = None.
Proof.
  induction 1 as [|op ops Hop _ IH]; intros st Hst; [exact Hst|].
  cbn. apply IH. destruct op as [now span|now minAge]; cbn in *.
  - by rewrite Collect_lookup_ne.
  - by rewrite Evict_lookup, Hst.
Qed.

(** C8: [Evict] removes the buckets whose [insertedAt] is older than
    [minAge] relative to [now] and no others; a trace evicted by it is in no
    later [Traces] snapshot, whatever collections (for other traces) and
    evictions follow, until a span is collected for it again. *)
Theorem Evict_exact_monotonic (now minAge : Z) (st : gmap appdash.ID StoreEntry) :
  (forall tid,
     Evict now minAge st !! tid =
     match st !! tid with
     | Some b => if decide (minAge < now - insertedAt b) then None else Some b
     | None => None
     end)
  /\ (forall tid b ops,
        st !! tid = Some b -> minAge < now - insertedAt b ->
        Forall (fun op => ~ collects tid op) ops ->
        Traces (run ops (Evict now minAge st)) !! tid = None).
Proof.
  split.
  - intros tid. rewrite Evict_lookup. destruct (st !! tid) as [b|]; [|done].
    unfold stale. repeat case_decide; done.
  - intros tid b ops Hb Hold Hops. unfold Traces. rewrite lookup_fmap.
    rewrite (run_absent tid ops Hops); [done|].
    rewrite Evict_lookup, Hb. by rewrite decide_True.
Qed.

End Store.

(** A trace inserted at time 0 and swept after [MinEvictAge] plus one
    nanosecond: gone, and still gone after a span of another trace is
    collected and a second sweep runs. *)
Lemma Evict_exact_monotonic_witness :
  sampleStore !! 7 = Some {| EvictingSpanStore.trace := [sampleSpan 7];
                             EvictingSpanStore.insertedAt := 0 |}
  /\ EvictingSpanStore.Traces
       (EvictingSpanStore.run
          [EvictingSpanStore.OpCollect (MinEvictAge + 2) (sampleSpan 9);
           EvictingSpanStore.OpEvict (MinEvictAge + 3) MinEvictAge]
          (EvictingSpanStore.Evict (MinEvictAge + 1) MinEvictAge sampleStore))
     !! 7 = None.
Proof.
  assert (Hb : sampleStore !! 7
               = Some {| EvictingSpanStore.trace := [sampleSpan 7];
                         EvictingSpanStore.insertedAt := 0 |})
    by (vm_compute; reflexivity).
  split; [exact Hb|].
  refine (proj2 (Evict_exact_monotonic (MinEvictAge + 1) MinEvictAge sampleStore)
            7 _ _ Hb _ _).
  - vm_compute. reflexivity.
  - repeat constructor; cbn; lia.
Defined.

(** ** The scenarios of the spec, evaluated *)

(** The batch of the scenario at [T0 = 1000] ms: the first span has
    [recv = 1000] ms and [send = 1150] ms, route "script" and URI "a.js";
    the second, for the entry without a name, [send = 1010] ms. *)
Example scenario_spans :
  map (fun sp =>
         match snd sp with
         | [appdash.AName n; appdash.AEvent e] =>
             (n, Route e, URI (Request e),
              time.ns (ServerRecv e), time.ns (ServerSend e))
         | _ => (EmptyString, EmptyString, EmptyString, 0, 0)
         end)
      (handled (P := amd64) scenarioBody (sampleWorld 1000000000))
  = [("a.js", "script", "a.js", 1000000000, 1150000000);
     (EmptyString, "img", EmptyString, 1000000000, 1010000000)].
Proof. vm_compute. reflexivity. Qed.

(** Half a millisecond, from a batch start 456789 ns past the millisecond:
    [send] is 456789 ns before [recv]. *)
Example half_millisecond_span :
  map (fun sp =>
         match snd sp with
         | [appdash.AName n; appdash.AEvent e] =>
             (time.ns (ServerRecv e), time.ns (ServerSend e))
         | _ => (0, 0)
         end)
      (handled (P := amd64) halfMilliBody (sampleWorld 1500000000123456789))
  = [(1500000000123456789, 1500000000123000000)].
Proof. vm_compute. reflexivity. Qed.

(** 10^13 ms: the product on line 309 leaves the [int64] range. *)
Example huge_duration_span :
  map (fun sp =>
         match snd sp with
         | [appdash.AName n; appdash.AEvent e] =>
             (time.ns (ServerRecv e), time.ns (ServerSend e))
         | _ => (0, 0)
         end)
      (handled (P := amd64) hugeBody (sampleWorld 1500000000123456789))
  = [(1500000000123456789, -6946744073586551616)].
Proof. vm_compute. reflexivity. Qed.

(** The body with a string for [endTime]: [Decode] reports the mismatch
    and leaves the entry in the slice, its duration zero. *)
Example mistyped_decode :
  json.Decode mistypedBody
  = ([{| Name := "a.js"; EntryType := EmptyString; StartTime := S754_zero false;
         EndTime := S754_zero false; InitiatorType := "script" |}],
     Some (json.UnmarshalTypeError "string")).
Proof. reflexivity. Qed.

(** The store scenario: [minEvictAge] 5 s, a trace inserted at 0; present
    after a sweep at 3 s, absent after a sweep at 6 s. *)
Example store_scenario :
  EvictingSpanStore.Traces
    (EvictingSpanStore.Evict 3000000000 5000000000 sampleStore) !! 7
  = Some [sampleSpan 7]
  /\ EvictingSpanStore.Traces
       (EvictingSpanStore.Evict 6000000000 5000000000 sampleStore) !! 7
     = None.
Proof. split; vm_compute; reflexivity. Qed.

(** * Further properties of the handler *)

(** ** Entries and their spans, by position *)

Lemma childSpans_lookup_entry {P : Platform} rnd traceID startTime t : forall n i sp,
  childSpans rnd traceID startTime n t !! i = Some sp ->
  exists ti, t !! i = Some ti /\
    sp = ({| appdash.Trace := appdash.Trace traceID; appdash.Span := rnd (n + i)%nat;
             appdash.Parent := appdash.Span traceID |},
          [appdash.AName (Name ti); appdash.AEvent (entryEvent startTime ti)]).
Proof.
  induction t as [|ti rest IH]; intros n i sp; [discriminate|].
  destruct i as [|i]; cbn.
  - intros [= <-]. exists ti. by rewrite Nat.add_0_r.
  - intros H. destruct (IH _ _ _ H) as (tj & Htj & ->).
    exists tj. split; [exact Htj|]. do 3 f_equal. lia.
Qed.

Lemma childSpans_lookup_Some {P : Platform} rnd traceID startTime t : forall n i ti,
  t !! i = Some ti ->
  childSpans rnd traceID startTime n t !! i
  = Some ({| appdash.Trace := appdash.Trace traceID; appdash.Span := rnd (n + i)%nat;
             appdash.Parent := appdash.Span traceID |},
          [appdash.AName (Name ti); appdash.AEvent (entryEvent startTime ti)]).
Proof.
  induction t as [|tj rest IH]; intros n i ti; [discriminate|].
  destruct i as [|i]; cbn.
  - intros [= <-]. by rewrite Nat.add_0_r.
  - intros H. etrans; [exact (IH (S n) i ti H)|]. do 4 f_equal. lia.
Qed.

Lemma handled_lookup {P : Platform} body w i sp :
  handled body w !! i = Some sp ->
  exists ti, batch body !! i = Some ti /\
    sp = ({| appdash.Trace := appdash.Trace (rootOf w);
             appdash.Span := random w (S (S (drawn w)) + i)%nat;
             appdash.Parent := appdash.Span (rootOf w) |},
          [appdash.AName (Name ti); appdash.AEvent (entryEvent (clock w) ti)]).
Proof. rewrite handled_eq. apply childSpans_lookup_entry. Qed.

(** The event recorded for an entry is the one lines 292-309 build. *)
Lemma recorded_entryEvent {P : Platform} body w ti e :
  recorded body w ti e -> e = entryEvent (clock w) ti.
Proof.
  intros (i & sp & Hti & Hsp & Hann).
  destruct (handled_lookup _ _ _ _ Hsp) as (tj & Htj & ->).
  rewrite Hti in Htj. injection Htj as <-. cbn in Hann. congruence.
Qed.

Lemma recorded_intro {P : Platform} body w i ti :
  batch body !! i = Some ti -> recorded body w ti (entryEvent (clock w) ti).
Proof.
  intros Hti. eexists i, _. split; [exact Hti|].
  split; [rewrite handled_eq; apply childSpans_lookup_Some, Hti | reflexivity].
Qed.

(** ** What a run leaves alone *)

(** X1: a run of the handler keeps every span the collector already
    held, in order, and adds its own after them, one per entry of the
    slice; it logs nothing when [Decode] returned no error and one line
    otherwise. *)
Theorem Endpoint_frame {P : Platform} (body : json.Body) (w : World) :
  collected (snd (Endpoint body w)) = (collected w ++ handled body w)%list
  /\ length (collected (snd (Endpoint body w)))
     = (length (collected w) + length (batch body))%nat
  /\ (snd (json.Decode body) = None -> logged (snd (Endpoint body w)) = logged w)
  /\ (snd (json.Decode body) <> None ->
      length (logged (snd (Endpoint body w))) = S (length (logged w))).
Proof.
  split; [apply collected_handled|].
  split; [rewrite Endpoint_run; cbn; by rewrite length_app, childSpans_length|].
  rewrite Endpoint_run; cbn; unfold logLines.
  destruct (snd (json.Decode body)) as [err|]; split; intros H;
    try done; try by rewrite app_nil_r.
  rewrite length_app. cbn. lia.
Qed.

(** X11: every span of every batch has two annotations, its name and its
    event; the name is the event's request URI, and the event is an HTTP/1.1
    request to example.com by user "u" with the one header
    [X-Req-Header: a], no remote address, no content length, and a response
    without headers. *)
Theorem Endpoint_event_constants {P : Platform} (body : json.Body) (w : World) :
  Forall
    (fun sp =>
       exists n e, snd sp = [appdash.AName n; appdash.AEvent e] /\
         URI (Request e) = n /\
         User e = "u" /\
         Proto (Request e) = "HTTP/1.1" /\
         Host (Request e) = "example.com" /\
         Headers (Request e) = {[ "X-Req-Header" := "a" ]} /\
         RemoteAddr (Request e) = EmptyString /\
         ContentLength (Request e) = 0 /\
         Response_Headers (Response e) = ∅ /\
         Response_ContentLength (Response e) = 0)
    (handled body w).
Proof.
  rewrite handled_eq.
  eapply Forall_impl; [apply childSpans_Forall|].
  intros sp (_ & _ & ti & ->). do 2 eexists. repeat split; reflexivity.
Qed.

(** ** Identifiers *)

(** The generator of the sample worlds, on its first draws. *)
Lemma sampleWorld_random (t0 : Z) (n : nat) :
  (n < 1000)%nat -> random (sampleWorld t0) n = 4096 + Z.of_nat n.
Proof. intros Hn. cbn. apply Z.mod_small. lia. Qed.

(** It yields 64-bit values. *)
Lemma sampleWorld_uint64 (t0 : Z) (n : nat) :
  appdash.is_uint64 (random (sampleWorld t0) n).
Proof. cbn. apply Z.mod_pos_bound. lia. Qed.

(** X2: when the values the generator yields during a run (two for the
    root, one per entry) are pairwise different, the spans of the batch have
    pairwise different span ids, and none of them has the id, or the trace
    id, of the root as its span id. *)
Theorem Endpoint_span_ids_distinct {P : Platform} (body : json.Body) (w : World) :
  (forall m n : nat,
     (drawn w <= m < drawn w + 2 + length (batch body))%nat ->
     (drawn w <= n < drawn w + 2 + length (batch body))%nat ->
     random w m = random w n -> m = n) ->
  (forall i j spi spj,
     handled body w !! i = Some spi -> handled body w !! j = Some spj ->
     i <> j -> appdash.Span (fst spi) <> appdash.Span (fst spj))
  /\ (forall i sp,
        handled body w !! i = Some sp ->
        appdash.Span (fst sp) <> appdash.Span (rootOf w) /\
        appdash.Span (fst sp) <> appdash.Trace (rootOf w)).
Proof.
  intros Hinj. split.
  - intros i j spi spj Hi Hj Hne.
    destruct (handled_lookup _ _ _ _ Hi) as (? & Hti & ->).
    destruct (handled_lookup _ _ _ _ Hj) as (? & Htj & ->).
    apply lookup_lt_Some in Hti, Htj.
    cbn. intros Heq. apply Hinj in Heq; lia.
  - intros i sp Hi.
    destruct (handled_lookup _ _ _ _ Hi) as (? & Hti & ->).
    apply lookup_lt_Some in Hti.
    cbn. split; intros Heq; apply Hinj in Heq; lia.
Qed.

(** The batch of the scenario: four draws of a 64-bit generator. *)
Lemma Endpoint_span_ids_distinct_witness :
  (forall m n : nat,
     (drawn (sampleWorld 1000000000) <= m
      < drawn (sampleWorld 1000000000) + 2 + length (batch scenarioBody))%nat ->
     (drawn (sampleWorld 1000000000) <= n
      < drawn (sampleWorld 1000000000) + 2 + length (batch scenarioBody))%nat ->
     random (sampleWorld 1000000000) m = random (sampleWorld 1000000000) n -> m = n)
  /\ (forall n, appdash.is_uint64 (random (sampleWorld 1000000000) n))
  /\ (forall i j spi spj,
        handled (P := amd64) scenarioBody (sampleWorld 1000000000) !! i = Some spi ->
        handled (P := amd64) scenarioBody (sampleWorld 1000000000) !! j = Some spj ->
        i <> j -> appdash.Span (fst spi) <> appdash.Span (fst spj))
  /\ (forall i sp,
        handled (P := amd64) scenarioBody (sampleWorld 1000000000) !! i = Some sp ->
        appdash.Span (fst sp) <> appdash.Span (rootOf (sampleWorld 1000000000)) /\
        appdash.Span (fst sp) <> appdash.Trace (rootOf (sampleWorld 1000000000))).
Proof.
  assert (H : forall m n : nat,
             (drawn (sampleWorld 1000000000) <= m
              < drawn (sampleWorld 1000000000) + 2 + length (batch scenarioBody))%nat ->
             (drawn (sampleWorld 1000000000) <= n
              < drawn (sampleWorld 1000000000) + 2 + length (batch scenarioBody))%nat ->
             random (sampleWorld 1000000000) m = random (sampleWorld 1000000000) n ->
             m = n).
  { change (length (batch scenarioBody)) with 2%nat.
    change (drawn (sampleWorld 1000000000)) with 0%nat.
    intros m n Hm Hn. rewrite !sampleWorld_random by lia. lia. }
  split; [exact H|]. split; [apply sampleWorld_uint64|].
  exact (Endpoint_span_ids_distinct (P := amd64) scenarioBody (sampleWorld 1000000000) H).
Defined.

(** X3: two requests handled one after the other leave the spans of the
    first, then those of the second, after what was collected before; when
    the values the generator yields during the two runs are pairwise
    different, no span of the second request has the trace id or the span id
    of a span of the first. *)
Theorem Endpoint_twice_distinct_traces {P : Platform} (body1 body2 : json.Body) (w : World) :
  (forall m n : nat,
     (drawn w <= m < drawn w + 4 + length (batch body1) + length (batch body2))%nat ->
     (drawn w <= n < drawn w + 4 + length (batch body1) + length (batch body2))%nat ->
     random w m = random w n -> m = n) ->
  collected (snd (Endpoint body2 (snd (Endpoint body1 w))))
  = (collected w ++ handled body1 w ++ handled body2 (snd (Endpoint body1 w)))%list
  /\ (forall i j sp1 sp2,
        handled body1 w !! i = Some sp1 ->
        handled body2 (snd (Endpoint body1 w)) !! j = Some sp2 ->
        appdash.Trace (fst sp1) <> appdash.Trace (fst sp2) /\
        appdash.Span (fst sp1) <> appdash.Span (fst sp2)).
Proof.
  intros Hinj. split.
  - rewrite collected_handled, collected_handled. by rewrite app_assoc.
  - intros i j sp1 sp2 H1 H2.
    destruct (handled_lookup _ _ _ _ H1) as (t1 & Ht1 & ->).
    destruct (handled_lookup _ _ _ _ H2) as (t2 & Ht2 & ->).
    apply lookup_lt_Some in Ht1, Ht2.
    rewrite Endpoint_run. cbn.
    split; intros Heq; apply Hinj in Heq; lia.
Qed.

(** The batch of the scenario, then the batch with one nameless entry:
    seven draws of a 64-bit generator. *)
Lemma Endpoint_twice_distinct_traces_witness :
  (forall m n : nat,
     (drawn (sampleWorld 1000000000) <= m
      < drawn (sampleWorld 1000000000) + 4 + length (batch scenarioBody)
        + length (batch namelessBody))%nat ->
     (drawn (sampleWorld 1000000000) <= n
      < drawn (sampleWorld 1000000000) + 4 + length (batch scenarioBody)
        + length (batch namelessBody))%nat ->
     random (sampleWorld 1000000000) m = random (sampleWorld 1000000000) n -> m = n)
  /\ (forall n, appdash.is_uint64 (random (sampleWorld 1000000000) n))
  /\ collected (snd (Endpoint (P := amd64) namelessBody
                       (snd (Endpoint (P := amd64) scenarioBody (sampleWorld 1000000000)))))
     = (collected (sampleWorld 1000000000)
        ++ handled (P := amd64) scenarioBody (sampleWorld 1000000000)
        ++ handled (P := amd64) namelessBody
             (snd (Endpoint (P := amd64) scenarioBody (sampleWorld 1000000000))))%list
  /\ (forall i j sp1 sp2,
        handled (P := amd64) scenarioBody (sampleWorld 1000000000) !! i = Some sp1 ->
        handled (P := amd64) namelessBody
          (snd (Endpoint (P := amd64) scenarioBody (sampleWorld 1000000000))) !! j = Some sp2 ->
        appdash.Trace (fst sp1) <> appdash.Trace (fst sp2) /\
        appdash.Span (fst sp1) <> appdash.Span (fst sp2)).
Proof.
  assert (H : forall m n : nat,
             (drawn (sampleWorld 1000000000) <= m
              < drawn (sampleWorld 1000000000) + 4 + length (batch scenarioBody)
                + length (batch namelessBody))%nat ->
             (drawn (sampleWorld 1000000000) <= n
              < drawn (sampleWorld 1000000000) + 4 + length (batch scenarioBody)
                + length (batch namelessBody))%nat ->
             random (sampleWorld 1000000000) m = random (sampleWorld 1000000000) n ->
             m = n).
  { change (length (batch scenarioBody)) with 2%nat.
    change (length (batch namelessBody)) with 1%nat.
    change (drawn (sampleWorld 1000000000)) with 0%nat.
    intros m n Hm Hn. rewrite !sampleWorld_random by lia. lia. }
  split; [exact H|]. split; [apply sampleWorld_uint64|].
  exact (Endpoint_twice_distinct_traces (P := amd64) scenarioBody namelessBody
           (sampleWorld 1000000000) H).
Defined.

(** ** What the loop reads of an entry *)

Lemma entryEvent_same {P : Platform} startTime a b :
  sameReadFields a b -> entryEvent startTime a = entryEvent startTime b.
Proof.
  intros (Hn & Hd & Hi). unfold entryEvent, sendTime. by rewrite Hn, Hd, Hi.
Qed.

Lemma childSpans_same {P : Platform} rnd traceID startTime t1 t2 :
  Forall2 sameReadFields t1 t2 ->
  forall n, childSpans rnd traceID startTime n t1 = childSpans rnd traceID startTime n t2.
Proof.
  induction 1 as [|a b t1 t2 Hab _ IH]; intros n; [reflexivity|].
  cbn. rewrite (entryEvent_same _ _ _ Hab), IH.
  destruct Hab as (-> & _). reflexivity.
Qed.

(** X4: the spans of a batch depend on the entries only through [Name],
    [EndTime] and [InitiatorType], and on the world only through the
    identifier generator and the clock: [StartTime] and [EntryType] of an
    entry, and what was collected or logged before, change nothing. *)
Theorem Endpoint_ignores_unread_fields {P : Platform} (body1 body2 : json.Body)
  (w1 w2 : World) :
  Forall2 sameReadFields (batch body1) (batch body2) ->
  sameInputs w1 w2 ->
  handled body1 w1 = handled body2 w2.
Proof.
  intros Hb (Hr & Hd & Hc). rewrite !handled_eq.
  unfold rootOf. rewrite Hr, Hd, Hc. by apply childSpans_same.
Qed.

(** The scenario and its variant, in a fresh world and in one that has
    already collected a span, logged a line and read the clock. *)
Lemma Endpoint_ignores_unread_fields_witness :
  Forall2 sameReadFields (batch scenarioBody) (batch scenarioBodyVariant)
  /\ sameInputs (sampleWorld 1000000000) (sampleWorldBusy 1000000000)
  /\ handled (P := amd64) scenarioBody (sampleWorld 1000000000)
     = handled (P := amd64) scenarioBodyVariant (sampleWorldBusy 1000000000).
Proof.
  assert (H1 : Forall2 sameReadFields (batch scenarioBody) (batch scenarioBodyVariant))
    by (vm_compute; repeat constructor).
  assert (H2 : sameInputs (sampleWorld 1000000000) (sampleWorldBusy 1000000000))
    by (repeat split; reflexivity).
  split; [exact H1|]. split; [exact H2|].
  exact (Endpoint_ignores_unread_fields (P := amd64) _ _ _ _ H1 H2).
Defined.

(** ** More on [send] *)

(** X5: the fraction of a millisecond in a duration is lost: two entries
    of a batch whose durations have the same integer part get the same
    [send]. *)
Theorem Endpoint_fraction_discarded {P : Platform} (body : json.Body) (w : World)
  (t1 t2 : ClientCallInfo) (e1 e2 : ServerEvent) (c : Z) :
  recorded body w t1 e1 -> recorded body w t2 e2 ->
  float64_trunc (EndTime t1) = Some c -> float64_trunc (EndTime t2) = Some c ->
  Int64.in_range c ->
  ServerSend e1 = ServerSend e2.
Proof.
  intros H1 H2 Hc1 Hc2 Hr.
  rewrite (recorded_entryEvent _ _ _ _ H1), (recorded_entryEvent _ _ _ _ H2).
  cbn. unfold sendTime.
  by rewrite (int64_of_float64_trunc _ c Hc1 Hr), (int64_of_float64_trunc _ c Hc2 Hr).
Qed.

(** X6: within a batch, where the nanosecond counts fit an [int64], two
    [send]s differ by the difference of the integer parts of the durations,
    in milliseconds, whatever the batch start; so a longer duration never
    gets an earlier [send]. *)
Theorem Endpoint_relative_send {P : Platform} (body : json.Body) (w : World)
  (t1 t2 : ClientCallInfo) (e1 e2 : ServerEvent) (c1 c2 : Z) :
  0 <= time.ns (clock w) <= Int64.max_int ->
  recorded body w t1 e1 -> recorded body w t2 e2 ->
  float64_trunc (EndTime t1) = Some c1 -> float64_trunc (EndTime t2) = Some c2 ->
  Int64.in_range ((time.ns (clock w) ÷ 1000000 + c1) * 1000000) ->
  Int64.in_range ((time.ns (clock w) ÷ 1000000 + c2) * 1000000) ->
  time.ns (ServerSend e2) - time.ns (ServerSend e1) = (c2 - c1) * 1000000
  /\ (c1 <= c2 -> time.ns (ServerSend e1) <= time.ns (ServerSend e2)).
Proof.
  intros Ht H1 H2 Hc1 Hc2 Hs1 Hs2.
  rewrite (recorded_entryEvent _ _ _ _ H1), (recorded_entryEvent _ _ _ _ H2).
  cbn [ServerSend entryEvent].
  rewrite (sendTime_exact _ _ c1 Ht Hc1 Hs1), (sendTime_exact _ _ c2 Ht Hc2 Hs2).
  split; [|intros Hle]; lia.
Qed.

(** X7: for a duration that is not negative, where the nanosecond count
    fits an [int64], [send] is less than a millisecond before [recv]:
    [send - recv] is the floor of the duration, in milliseconds, less the
    part of [recv] below the millisecond. *)
Theorem Endpoint_nonnegative_duration {P : Platform} (body : json.Body) (w : World)
  (ti : ClientCallInfo) (e : ServerEvent) (q : Q) :
  0 <= time.ns (clock w) <= Int64.max_int ->
  recorded body w ti e ->
  float64_value (EndTime ti) = Some q -> (0 <= q)%Q ->
  Int64.in_range ((time.ns (clock w) ÷ 1000000 + Qfloor q) * 1000000) ->
  time.ns (ServerSend e) - time.ns (ServerRecv e)
  = Qfloor q * 1000000 - time.ns (clock w) mod 1000000
  /\ time.ns (ServerRecv e) - time.ns (ServerSend e) < 1000000.
Proof.
  intros Ht Hrec Hv H0 Hs.
  rewrite (recorded_entryEvent _ _ _ _ Hrec). cbn [ServerSend ServerRecv entryEvent].
  pose proof (float64_trunc_value _ _ Hv) as Hc.
  apply Qle_bool_iff in H0 as Hb. rewrite Hb in Hc.
  pose proof (Qfloor_resp_le _ _ H0) as Hlo. change (Qfloor 0) with 0 in Hlo.
  pose proof (sendTime_minus_recv _ _ _ Ht Hc Hs) as Hd.
  pose proof (Z.mod_pos_bound (time.ns (clock w)) 1000000 ltac:(lia)).
  split; lia.
Qed.

(** A duration strictly between -1 and 1 has integer part zero: the
    conversion rounds toward zero, not down. *)
Lemma float64_trunc_small (f : float64) (q : Q) :
  float64_value f = Some q -> (- (1) < q)%Q -> (q < 1)%Q ->
  float64_trunc f = Some 0.
Proof.
  intros Hv Hm H1.
  destruct (Qlt_le_dec q 0) as [Hneg|Hpos].
  - rewrite (float64_trunc_value f q Hv).
    destruct (Qle_bool 0 q) eqn:Hb.
    + apply Qle_bool_iff in Hb. exfalso. eapply Qlt_irrefl, Qlt_le_trans; eauto.
    + f_equal.
      pose proof (Qle_ceiling q) as Hu.
      pose proof (Qceiling_lt q) as Hl.
      assert (Ha : (inject_Z (Qceiling q - 1) < inject_Z 0)%Q)
        by (eapply Qlt_trans; [exact Hl | exact Hneg]).
      assert (Hb' : (inject_Z (- 1) < inject_Z (Qceiling q))%Q)
        by (eapply Qlt_le_trans; [exact Hm | exact Hu]).
      rewrite <- Zlt_Qlt in Ha, Hb'. lia.
  - by apply (float64_trunc_unit f q).
Qed.

(** X12: a duration strictly between -1 ms and 1 ms, negative or not, adds
    nothing: [send] is the batch start cut to whole milliseconds. *)
Theorem Endpoint_submillisecond_duration {P : Platform} (body : json.Body) (w : World)
  (ti : ClientCallInfo) (e : ServerEvent) (q : Q) :
  0 <= time.ns (clock w) <= Int64.max_int ->
  recorded body w ti e ->
  float64_value (EndTime ti) = Some q -> (- (1) < q)%Q -> (q < 1)%Q ->
  time.ns (ServerSend e) = time.ns (clock w) - time.ns (clock w) mod 1000000.
Proof.
  intros Ht Hrec Hv Hm H1.
  rewrite (recorded_entryEvent _ _ _ _ Hrec). cbn [ServerSend entryEvent].
  pose proof (float64_trunc_small _ _ Hv Hm H1) as Hc.
  destruct (millis_bounds _ Ht) as [Hq Heq].
  rewrite (sendTime_exact _ _ 0 Ht Hc).
  - lia.
  - pose proof (Z.mod_pos_bound (time.ns (clock w)) 1000000 ltac:(lia)).
    unfold Int64.in_range, Int64.min_int, Int64.max_int in *. lia.
Qed.

(** Adding a multiple of 2^64 changes nothing of an [int64]. *)
Lemma wrap_add_multiple (z k : Z) : Int64.wrap (z + k * 2 ^ 64) = Int64.wrap z.
Proof.
  unfold Int64.wrap.
  replace (z + k * 2 ^ 64 + 2 ^ 63) with (z + 2 ^ 63 + k * 2 ^ 64) by lia.
  by rewrite Z_mod_plus_full.
Qed.

(** X8: on amd64, an entry whose duration has no integer part that fits
    an [int64] (2^63 ms or more in size, infinite, not a number) gets the
    [send] of a zero duration: the batch start cut to whole milliseconds. *)
Theorem Endpoint_amd64_unrepresentable (body : json.Body) (w : World)
  (ti : ClientCallInfo) (e : ServerEvent) :
  0 <= time.ns (clock w) <= Int64.max_int ->
  recorded (P := amd64) body w ti e ->
  (forall c, float64_trunc (EndTime ti) = Some c -> ~ Int64.in_range c) ->
  time.ns (ServerSend e) = time.ns (clock w) - time.ns (clock w) mod 1000000.
Proof.
  intros Ht Hrec Hun.
  rewrite (recorded_entryEvent _ _ _ _ Hrec). cbn [ServerSend entryEvent].
  destruct (millis_bounds _ Ht) as [Hq Heq].
  pose proof (Z.mod_pos_bound (time.ns (clock w)) 1000000 ltac:(lia)) as Hm.
  assert (Hc : int64_of_float64 (P := amd64) (EndTime ti) = Int64.min_int).
  { unfold int64_of_float64.
    destruct (float64_trunc (EndTime ti)) as [c|] eqn:Hc; [|reflexivity].
    destruct (decide (Int64.in_range c)) as [Hr|_]; [|reflexivity].
    by destruct (Hun c eq_refl). }
  unfold sendTime, time.Unix, time.UnixNano. cbn [time.ns]. rewrite Hc.
  unfold Int64.mul, Int64.add, Int64.div.
  unfold Int64.max_int in *.
  rewrite (wrap_in_range (time.ns (clock w)))
    by (unfold Int64.in_range, Int64.min_int, Int64.max_int; lia).
  rewrite (wrap_in_range (time.ns (clock w) ÷ 1000000))
    by (unfold Int64.in_range, Int64.min_int, Int64.max_int; lia).
  rewrite (wrap_in_range (time.ns (clock w) ÷ 1000000 + Int64.min_int))
    by (unfold Int64.in_range, Int64.min_int, Int64.max_int; lia).
  replace ((time.ns (clock w) ÷ 1000000 + Int64.min_int) * 1000000)
    with (time.ns (clock w) ÷ 1000000 * 1000000 + (- 500000) * 2 ^ 64)
    by (unfold Int64.min_int; lia).
  rewrite wrap_add_multiple, wrap_in_range
    by (unfold Int64.in_range, Int64.min_int, Int64.max_int; lia).
  lia.
Qed.

(** Durations of 150 ms and of 150.75 ms. *)
Lemma Endpoint_fraction_discarded_witness :
  recorded (P := amd64) fractionBody (sampleWorld 1500000000123456789)
    (sampleEntry "a.js" 150 0 "script")
    (entryEvent (P := amd64) (clock (sampleWorld 1500000000123456789))
       (sampleEntry "a.js" 150 0 "script"))
  /\ recorded (P := amd64) fractionBody (sampleWorld 1500000000123456789)
       (sampleEntry "b.js" 603 (-2) "script")
       (entryEvent (P := amd64) (clock (sampleWorld 1500000000123456789))
          (sampleEntry "b.js" 603 (-2) "script"))
  /\ float64_trunc (EndTime (sampleEntry "a.js" 150 0 "script")) = Some 150
  /\ float64_trunc (EndTime (sampleEntry "b.js" 603 (-2) "script")) = Some 150
  /\ ServerSend (entryEvent (P := amd64) (clock (sampleWorld 1500000000123456789))
                   (sampleEntry "a.js" 150 0 "script"))
     = ServerSend (entryEvent (P := amd64) (clock (sampleWorld 1500000000123456789))
                     (sampleEntry "b.js" 603 (-2) "script")).
Proof.
  assert (H1 := recorded_intro (P := amd64) fractionBody
                  (sampleWorld 1500000000123456789) 0
                  (sampleEntry "a.js" 150 0 "script") eq_refl).
  assert (H2 := recorded_intro (P := amd64) fractionBody
                  (sampleWorld 1500000000123456789) 1
                  (sampleEntry "b.js" 603 (-2) "script") eq_refl).
  assert (Hc1 : float64_trunc (EndTime (sampleEntry "a.js" 150 0 "script")) = Some 150)
    by reflexivity.
  assert (Hc2 : float64_trunc (EndTime (sampleEntry "b.js" 603 (-2) "script")) = Some 150)
    by reflexivity.
  assert (Hr : Int64.in_range 150) by (vm_compute; split; discriminate).
  split; [exact H1|]. split; [exact H2|]. split; [exact Hc1|]. split; [exact Hc2|].
  exact (Endpoint_fraction_discarded (P := amd64) _ _ _ _ _ _ 150 H1 H2 Hc1 Hc2 Hr).
Defined.

(** The two entries of the scenario, 10 ms and 150 ms. *)
Lemma Endpoint_relative_send_witness :
  time.ns (ServerSend (entryEvent (P := amd64) (clock (sampleWorld 1500000000123456789))
                         (sampleEntry "a.js" 150 0 "script")))
  - time.ns (ServerSend (entryEvent (P := amd64) (clock (sampleWorld 1500000000123456789))
                           (sampleEntry EmptyString 10 0 "img")))
  = (150 - 10) * 1000000
  /\ (10 <= 150 ->
      time.ns (ServerSend (entryEvent (P := amd64) (clock (sampleWorld 1500000000123456789))
                             (sampleEntry EmptyString 10 0 "img")))
      <= time.ns (ServerSend (entryEvent (P := amd64) (clock (sampleWorld 1500000000123456789))
                                (sampleEntry "a.js" 150 0 "script")))).
Proof.
  refine (Endpoint_relative_send (P := amd64) scenarioBody
            (sampleWorld 1500000000123456789)
            (sampleEntry EmptyString 10 0 "img") (sampleEntry "a.js" 150 0 "script")
            _ _ 10 150 _ _ _ _ _ _ _).
  - vm_compute; split; discriminate.
  - exact (recorded_intro (P := amd64) scenarioBody _ 1 _ eq_refl).
  - exact (recorded_intro (P := amd64) scenarioBody _ 0 _ eq_refl).
  - reflexivity.
  - reflexivity.
  - vm_compute; split; discriminate.
  - vm_compute; split; discriminate.
Defined.

(** 150.75 ms, from a batch start 456789 ns past the millisecond. *)
Lemma Endpoint_nonnegative_duration_witness :
  time.ns (ServerSend (entryEvent (P := amd64) (clock (sampleWorld 1500000000123456789))
                         (sampleEntry "b.js" 603 (-2) "script")))
  - time.ns (ServerRecv (entryEvent (P := amd64) (clock (sampleWorld 1500000000123456789))
                           (sampleEntry "b.js" 603 (-2) "script")))
  = Qfloor (sampleValue 603 (-2)) * 1000000
    - time.ns (clock (sampleWorld 1500000000123456789)) mod 1000000
  /\ time.ns (ServerRecv (entryEvent (P := amd64) (clock (sampleWorld 1500000000123456789))
                            (sampleEntry "b.js" 603 (-2) "script")))
     - time.ns (ServerSend (entryEvent (P := amd64) (clock (sampleWorld 1500000000123456789))
                              (sampleEntry "b.js" 603 (-2) "script")))
     < 1000000.
Proof.
  refine (Endpoint_nonnegative_duration (P := amd64) fractionBody
            (sampleWorld 1500000000123456789)
            (sampleEntry "b.js" 603 (-2) "script") _ (sampleValue 603 (-2)) _ _ _ _ _).
  - vm_compute; split; discriminate.
  - exact (recorded_intro (P := amd64) fractionBody _ 1 _ eq_refl).
  - reflexivity.
  - vm_compute; discriminate.
  - vm_compute; split; discriminate.
Defined.

(** -0.75 ms. *)
Lemma Endpoint_submillisecond_duration_witness :
  time.ns (ServerSend (entryEvent (P := amd64) (clock (sampleWorld 1500000000123456789))
                         (sampleEntry "a.js" (-3) (-2) "script")))
  = time.ns (clock (sampleWorld 1500000000123456789))
    - time.ns (clock (sampleWorld 1500000000123456789)) mod 1000000.
Proof.
  refine (Endpoint_submillisecond_duration (P := amd64) negativeFractionBody
            (sampleWorld 1500000000123456789)
            (sampleEntry "a.js" (-3) (-2) "script") _ (sampleValue (-3) (-2)) _ _ _ _ _).
  - vm_compute; split; discriminate.
  - exact (recorded_intro (P := amd64) negativeFractionBody _ 0 _ eq_refl).
  - reflexivity.
  - vm_compute; reflexivity.
  - vm_compute; reflexivity.
Defined.

(** 2^1000 ms. *)
Lemma Endpoint_amd64_unrepresentable_witness :
  time.ns (ServerSend (entryEvent (P := amd64) (clock (sampleWorld 1500000000123456789))
                         (sampleEntry "a.js" 1 1000 "script")))
  = time.ns (clock (sampleWorld 1500000000123456789))
    - time.ns (clock (sampleWorld 1500000000123456789)) mod 1000000.
Proof.
  refine (Endpoint_amd64_unrepresentable astronomicBody
            (sampleWorld 1500000000123456789)
            (sampleEntry "a.js" 1 1000 "script") _ _ _ _).
  - vm_compute; split; discriminate.
  - exact (recorded_intro (P := amd64) astronomicBody _ 0 _ eq_refl).
  - intros c Hc. vm_compute in Hc. injection Hc as <-.
    intros [_ H]. vm_compute in H. apply H. reflexivity.
Defined.

(** ** From the page's script to the handler *)

(** What [Decode] stores for a number the script wrote. *)
Lemma storeFloat_stringify (x old : float64) :
  old = S754_zero false ->
  json.storeFloat (js.stringify_number x) old = (receivedNumber x, None).
Proof. intros ->. by destruct x. Qed.

Lemma decodeElement_item (val : js.ResourceTiming) :
  json.decodeElement (js.item val) None = (received val, None).
Proof.
  unfold js.item, json.decodeElement, json.storeMembers, json.storeMember.
  change (json.findField "name") with (Some json.FName).
  change (json.findField "entryType") with (Some json.FEntryType).
  change (json.findField "startTime") with (Some json.FStartTime).
  change (json.findField "endTime") with (Some json.FEndTime).
  change (json.findField "initiatorType") with (Some json.FInitiatorType).
  cbn -[js.stringify_number].
  rewrite !storeFloat_stringify by reflexivity. reflexivity.
Qed.

Lemma decodeElements_items (arr : list js.ResourceTiming) :
  json.decodeElements (map js.item arr) None = (map received arr, None).
Proof.
  induction arr as [|val arr IH]; [reflexivity|].
  cbn -[json.decodeElement js.item].
  by rewrite decodeElement_item, IH.
Qed.

(** X9: [Decode] takes the body the script posts without error, although
    the script writes the keys in lower case and the struct has them
    capitalised: it yields one entry per resource, in order, with the
    resource's name, entry type and initiator type, its [fetchStart] as
    [StartTime] and its duration as [EndTime] (zero for a number that is
    not finite, which the script posts as [null]). *)
Theorem script_payload_decodes (arr : list js.ResourceTiming) :
  json.Decode (js.payload arr) = (map received arr, None)
  /\ Forall2
       (fun val ti =>
          Name ti = js.name val /\ EntryType ti = js.entryType val /\
          InitiatorType ti = js.initiatorType val /\
          (forall c, float64_trunc (js.duration val) = Some c ->
                     float64_trunc (EndTime ti) = Some c) /\
          (forall c, float64_trunc (js.fetchStart val) = Some c ->
                     float64_trunc (StartTime ti) = Some c))
       arr (batch (js.payload arr)).
Proof.
  assert (H : json.Decode (js.payload arr) = (map received arr, None))
    by apply decodeElements_items.
  split; [exact H|]. unfold batch. rewrite H. cbn [fst].
  induction arr as [|val arr IH]; constructor.
  - repeat split; try reflexivity; cbn.
    + by destruct (js.duration val).
    + by destruct (js.fetchStart val).
  - apply IH. apply decodeElements_items.
Qed.

(** X10: for the body the script posts, the handler logs nothing and
    records one span per resource, in order: named by the resource's name,
    which is also its URI, with the initiator type as route, and with a
    [send] of the batch start cut to whole milliseconds plus the integer
    part of the resource's duration (where that fits an [int64]). *)
Theorem script_payload_spans {P : Platform} (arr : list js.ResourceTiming) (w : World) :
  0 <= time.ns (clock w) <= Int64.max_int ->
  logged (snd (Endpoint (js.payload arr) w)) = logged w
  /\ Forall2
       (fun val sp =>
          exists e, snd sp = [appdash.AName (js.name val); appdash.AEvent e] /\
            URI (Request e) = js.name val /\
            Route e = js.initiatorType val /\
            forall c, float64_trunc (js.duration val) = Some c ->
              Int64.in_range ((time.ns (clock w) ÷ 1000000 + c) * 1000000) ->
              time.ns (ServerSend e) = (time.ns (clock w) ÷ 1000000 + c) * 1000000)
       arr (handled (js.payload arr) w).
Proof.
  intros Ht.
  assert (H : json.Decode (js.payload arr) = (map received arr, None))
    by apply decodeElements_items.
  split.
  - rewrite Endpoint_run. cbn. unfold logLines. rewrite H. cbn. apply app_nil_r.
  - rewrite handled_eq. unfold batch. rewrite H. cbn [fst].
    generalize (S (S (drawn w))). clear H.
    induction arr as [|val arr IH]; intros n; cbn [map childSpans]; constructor.
    + eexists. split; [reflexivity|]. split; [reflexivity|]. split; [reflexivity|].
      intros c Hc Hs. cbn [ServerSend entryEvent].
      apply sendTime_exact; [exact Ht| |exact Hs].
      cbn. destruct (js.duration val); cbn in *; congruence.
    + apply IH.
Qed.

(** Two resources, one of 150.75 ms and one of zero duration. *)
Lemma script_payload_spans_witness :
  0 <= time.ns (clock (sampleWorld 1500000000123456789)) <= Int64.max_int
  /\ logged (snd (Endpoint (P := amd64) (js.payload sampleResources)
                    (sampleWorld 1500000000123456789)))
     = logged (sampleWorld 1500000000123456789)
  /\ Forall2
       (fun val sp =>
          exists e, snd sp = [appdash.AName (js.name val); appdash.AEvent e] /\
            URI (Request e) = js.name val /\
            Route e = js.initiatorType val /\
            forall c, float64_trunc (js.duration val) = Some c ->
              Int64.in_range
                ((time.ns (clock (sampleWorld 1500000000123456789)) ÷ 1000000 + c)
                 * 1000000) ->
              time.ns (ServerSend e)
              = (time.ns (clock (sampleWorld 1500000000123456789)) ÷ 1000000 + c)
                * 1000000)
       sampleResources
       (handled (P := amd64) (js.payload sampleResources)
          (sampleWorld 1500000000123456789)).
Proof.
  assert (H : 0 <= time.ns (clock (sampleWorld 1500000000123456789)) <= Int64.max_int)
    by (vm_compute; split; discriminate).
  split; [exact H|].
  exact (script_payload_spans (P := amd64) sampleResources
           (sampleWorld 1500000000123456789) H).
Defined.

(** The sample resources, posted and handled: names, routes, [recv] and
    [send]. *)
Example script_payload_evaluated :
  map (fun sp =>
         match snd sp with
         | [appdash.AName n; appdash.AEvent e] =>
             (n, Route e, time.ns (ServerRecv e), time.ns (ServerSend e))
         | _ => (EmptyString, EmptyString, 0, 0)
         end)
      (handled (P := amd64) (js.payload sampleResources)
         (sampleWorld 1500000000123456789))
  = [("https://example.com/a.js", "script",
      1500000000123456789, 1500000000273000000);
     ("https://example.com/a.css", "link",
      1500000000123456789, 1500000000123000000)].
Proof. vm_compute. reflexivity. Qed.
